(** * AWS Bedrock manifold pipeline: the provider format adapter

    A shallow embedding of [Pipeline._format_message], [Pipeline._extract_output]
    and [Pipeline._stream_response] of
    [examples/pipelines/providers/aws_bedrock_manifold_pipeline.py], with the
    properties of its request formatter, whole-response decoder and streaming
    decoder.

    Python values are a small inductive type, exceptions are an error monad,
    generators are the list of values they yield together with the way they
    end, and the one list object the Anthropic formatter shares between
    several dictionaries lives in an explicit store. *)

From Stdlib Require Import ZArith NArith List Ascii String Bool Lia.
From Stdlib Require Import Strings.Byte DecimalString.
From stdpp Require Import base option list strings gmap.

Set Warnings "-register-all".
Local Open Scope string_scope.
Local Open Scope Z_scope.
Local Open Scope list_scope.

(** ** Python values *)

(** A Python [str] is held as the bytes of its UTF-8 encoding: equality,
    concatenation and containment of valid strings agree with Python's on code
    points, because UTF-8 is self-synchronising. A [float] is held as the
    decimal [m * 10^e] that its [repr] prints; the adapter never computes with
    one. A [dict] keeps its keys in insertion order, as [json.dumps] prints
    them. *)
Inductive val : Type :=
| VNone
| VBool (b : bool)
| VInt (n : Z)
| VFloat (m e : Z)
| VStr (s : string)
| VList (xs : list val)
| VDict (kvs : list (string * val)).

Definition bytes : Type := list byte.

Inductive exn : Type :=
| KeyError
| IndexError
| TypeError
| AttributeError
| JSONDecodeError
| UnicodeDecodeError
| ImportError.

(** ** The error monad *)

Inductive result (A : Type) : Type :=
| Ok (a : A)
| Raise (e : exn).
Arguments Ok {A} a.
Arguments Raise {A} e.

#[global] Instance result_ret : MRet result := fun A a => Ok a.
#[global] Instance result_bind : MBind result := fun A B f r =>
  match r with Ok a => f a | Raise e => Raise e end.
#[global] Instance result_fmap : FMap result := fun A B f r =>
  match r with Ok a => Ok (f a) | Raise e => Raise e end.

Definition raises {A} (r : result A) : Prop := exists e, r = Raise e.

(** ** Operations on values *)

(** [d.get(k)]: the value of the entry with key [k], if any. *)
Fixpoint dict_lookup (kvs : list (string * val)) (k : string) : option val :=
  match kvs with
  | [] => None
  | (k', v) :: rest => if String.eqb k' k then Some v else dict_lookup rest k
  end.

(** [d[k] = v]: an existing key keeps its place, a new key goes last. *)
Fixpoint dict_set (kvs : list (string * val)) (k : string) (v : val)
  : list (string * val) :=
  match kvs with
  | [] => [(k, v)]
  | (k', v') :: rest =>
      if String.eqb k' k then (k', v) :: rest else (k', v') :: dict_set rest k v
  end.

(** A byte that continues a UTF-8 sequence: [10xxxxxx]. *)
Definition is_continuation (c : ascii) : bool :=
  let n := N_of_ascii c in (128 <=? n)%N && (n <? 192)%N.

(** The code points of a [str], each as its own one-character [str]. *)
Fixpoint str_chars (s : string) : list string :=
  match s with
  | EmptyString => []
  | String c rest =>
      match str_chars rest with
      | [] => [String c EmptyString]
      | x :: xs =>
          match x with
          | String c' _ =>
              if is_continuation c' then String c x :: xs
              else String c EmptyString :: x :: xs
          | EmptyString => String c EmptyString :: xs
          end
      end
  end.

(** [v[k]] for a string [k]. *)
Definition getitem_key (v : val) (k : string) : result val :=
  match v with
  | VDict kvs =>
      match dict_lookup kvs k with Some x => Ok x | None => Raise KeyError end
  | _ => Raise TypeError
  end.

(** [v[i]] for a non-negative integer literal [i]. A dict read from JSON has
    string keys only, so an integer is never among them. *)
Definition getitem_idx (v : val) (i : nat) : result val :=
  match v with
  | VList xs =>
      match xs !! i with Some x => Ok x | None => Raise IndexError end
  | VStr s =>
      match str_chars s !! i with Some c => Ok (VStr c) | None => Raise IndexError end
  | VDict _ => Raise KeyError
  | _ => Raise TypeError
  end.

(** [v.get(k, d)]: only a dict has the method. *)
Definition get_method (v : val) (k : string) (d : val) : result val :=
  match v with
  | VDict kvs => Ok (default d (dict_lookup kvs k))
  | _ => Raise AttributeError
  end.

(** Python's truth value of an object. *)
Definition truthy (v : val) : bool :=
  match v with
  | VNone => false
  | VBool b => b
  | VInt n => negb (n =? 0)
  | VFloat m _ => negb (m =? 0)
  | VStr s => negb (String.eqb s "")
  | VList xs => match xs with [] => false | _ :: _ => true end
  | VDict kvs => match kvs with [] => false | _ :: _ => true end
  end.

(** [needle in hay] on strings: [needle] occurs as a contiguous run. *)
Fixpoint contains (needle hay : string) : bool :=
  String.prefix needle hay ||
  match hay with
  | EmptyString => false
  | String _ rest => contains needle rest
  end.

(** [model_id.split(".")]: the segments between the separator. *)
Fixpoint split (sep : ascii) (s : string) : list string :=
  match s with
  | EmptyString => [EmptyString]
  | String c rest =>
      if Ascii.eqb c sep then EmptyString :: split sep rest
      else match split sep rest with
           | x :: xs => String c x :: xs
           | [] => [String c EmptyString]
           end
  end.

(** ** Library functions over bytes *)

Definition b64_alphabet : string :=
  "ABCDEFGHIJKLMNOPQRSTUVWXYZabcdefghijklmnopqrstuvwxyz0123456789+/".

Definition b64_digit (n : N) : ascii :=
  default "="%char (String.get (N.to_nat n) b64_alphabet).

(** [base64.b64encode(data).decode('utf-8')]: three bytes give four digits,
    the last group is padded with [=]. *)
Fixpoint b64encode (data : bytes) : string :=
  match data with
  | [] => EmptyString
  | [a] =>
      let n := Byte.to_N a in
      String (b64_digit (n / 4))
        (String (b64_digit ((n mod 4) * 16)) "==")
  | [a; b] =>
      let n := Byte.to_N a in
      let m := Byte.to_N b in
      String (b64_digit (n / 4))
        (String (b64_digit ((n mod 4) * 16 + m / 16))
           (String (b64_digit ((m mod 16) * 4)) "="))
  | a :: b :: c :: rest =>
      let n := Byte.to_N a in
      let m := Byte.to_N b in
      let k := Byte.to_N c in
      String (b64_digit (n / 4))
        (String (b64_digit ((n mod 4) * 16 + m / 16))
           (String (b64_digit ((m mod 16) * 4 + k / 64))
              (String (b64_digit (k mod 64)) (b64encode rest))))
  end%N.

Definition between (lo hi n : N) : bool := ((lo <=? n) && (n <=? hi))%N.

(** The well-formed UTF-8 byte sequences (no overlong form, no surrogate,
    nothing above U+10FFFF), as Python's strict decoder accepts them. *)
Fixpoint utf8_valid (bs : list N) : bool :=
  match bs with
  | [] => true
  | b0 :: r0 =>
      if (b0 <? 128)%N then utf8_valid r0
      else
        match r0 with
        | [] => false
        | b1 :: r1 =>
            if between 194 223 b0 then between 128 191 b1 && utf8_valid r1
            else
              match r1 with
              | [] => false
              | b2 :: r2 =>
                  if between 224 239 b0 then
                    (if (b0 =? 224)%N then between 160 191 b1
                     else if (b0 =? 237)%N then between 128 159 b1
                     else between 128 191 b1)
                    && between 128 191 b2 && utf8_valid r2
                  else
                    match r2 with
                    | [] => false
                    | b3 :: r3 =>
                        between 240 244 b0
                        && (if (b0 =? 240)%N then between 144 191 b1
                            else if (b0 =? 244)%N then between 128 143 b1
                            else between 128 191 b1)
                        && between 128 191 b2 && between 128 191 b3
                        && utf8_valid r3
                    end
              end
        end
  end.

(** [data.decode("utf-8")]. *)
Definition decode_utf8 (data : bytes) : result string :=
  if utf8_valid (map Byte.to_N data) then Ok (string_of_list_byte data)
  else Raise UnicodeDecodeError.

(** ** The uniform request *)

(** One chat turn of [messages]: a dict with the keys [role] and [content],
    both strings, as the chat interface hands them over. *)
Record message : Type := Message { role : string; content : string }.

(** The line feed, Python's ["\n"]. *)
Definition LF : string := String (ascii_of_nat 10) EmptyString.

(** What [requests.get(url)], [raise_for_status()] and [.content] come to:
    the body of the answer, a [requests.exceptions.RequestException], or any
    other exception. *)
Inductive fetched : Type :=
| Fetched (data : bytes)
| RequestException
| FetchRaised (e : exn).

(** ** The store of list objects *)

(** A list that several dictionaries refer to is kept in a store and named
    by its address; [json.dumps] reads the store when it serialises. *)
Abbreviation loc := nat (only parsing).
Abbreviation heap := (list (list val)) (only parsing).

(** The object graph handed to [json.dumps]: plain values, references to
    stored lists, and fresh lists and dicts built around them. *)
Inductive obj : Type :=
| OVal (v : val)
| ORef (l : loc)
| OList (os : list obj)
| ODict (kvs : list (string * obj)).

(** [x = []]: a fresh list object. *)
Definition alloc (h : heap) : loc * heap := (length h, h ++ [[]]).

(** [x.append(v)] on the list at [l]. *)
Definition append (l : loc) (v : val) (h : heap) : heap :=
  alter (fun xs => xs ++ [v]) l h.

(** The value [json.dumps] sees at [o] in store [h]. *)
Fixpoint freeze (h : heap) (o : obj) : val :=
  match o with
  | OVal v => v
  | ORef l => VList (default [] (h !! l))
  | OList os => VList (map (freeze h) os)
  | ODict kvs => VDict (map (fun kv => (kv.1, freeze h kv.2)) kvs)
  end.

(** ** [Pipeline._format_message] *)

Section Formatter.

(** [json.dumps] on the values above, and the image download. *)
Variable json_dumps : val -> string.
Variable requests_get : val -> fetched.

(** The [amazon] loop: [prompt += f"{message['content']} "] on user turns. *)
Definition amazon_prompt (messages : list message) : string :=
  fold_left
    (fun prompt m =>
       if String.eqb (role m) "user" then prompt +:+ (content m +:+ " ")
       else prompt)
    messages "".

(** The [ai21], [cohere] and [meta] loops:
    [prompt += f"{message['role']}: {message['content']}\n"]. *)
Definition transcript_prompt (messages : list message) : string :=
  fold_left
    (fun prompt m => prompt +:+ (role m +:+ ": " +:+ content m +:+ LF))
    messages "".

(** The [mistral] loop. *)
Definition mistral_prompt (messages : list message) : string :=
  fold_left
    (fun prompt m =>
       if String.eqb (role m) "user"
       then prompt +:+ ("[INST] " +:+ content m +:+ " [/INST]")
       else if String.eqb (role m) "assistant" then prompt +:+ content m
       else prompt)
    messages "".

Definition amazon_body (messages : list message) (max_tokens temperature : val)
  : val :=
  VDict [("inputText", VStr (amazon_prompt messages));
         ("textGenerationConfig",
          VDict [("maxTokenCount", max_tokens);
                 ("stopSequences", VList []);
                 ("temperature", temperature)])].

Definition image_block (image_data : string) : val :=
  VDict [("type", VStr "image");
         ("source", VDict [("type", VStr "base64");
                           ("media_type", VStr "image/jpeg");
                           ("data", VStr image_data)])].

Definition text_block (text : string) : val :=
  VDict [("type", VStr "text"); ("text", VStr text)].

(** [messages and messages[-1]["role"] == "user" and body.get("image_url")] *)
Definition wants_image (messages : list message) (body : gmap string val)
  : bool :=
  match last messages with
  | None => false
  | Some m =>
      String.eqb (role m) "user"
      && truthy (default VNone (body !! "image_url"))
  end.

(** The download of the image into the list [content], stored at
    [content_loc]. A [RequestException] is printed and formatting goes on;
    any other exception leaves the function. *)
Definition attach_image (content_loc : loc) (messages : list message)
    (body : gmap string val) (h : heap) : result heap :=
  if wants_image messages body then
    match body !! "image_url" with
    | None => Raise KeyError
    | Some image_url =>
        match requests_get image_url with
        | Fetched data => Ok (append content_loc (image_block (b64encode data)) h)
        | RequestException => Ok h
        | FetchRaised e => Raise e
        end
    end
  else Ok h.

(** One round of the [anthropic] loop: a user turn appends its text block
    to the list [content] and appends a dict that refers to that list. *)
Definition anthropic_step (content_loc : loc) (st : list obj * heap) (m : message)
  : list obj * heap :=
  let '(anthropic_messages, h) := st in
  if String.eqb (role m) "user" then
    (anthropic_messages
       ++ [ODict [("role", OVal (VStr "user")); ("content", ORef content_loc)]],
     append content_loc (text_block (content m)) h)
  else if String.eqb (role m) "assistant" then
    (anthropic_messages
       ++ [ODict [("role", OVal (VStr "assistant"));
                  ("content", OVal (VStr (content m)))]],
     h)
  else st.

(** The [anthropic] branch. [content] is allocated once, before the loop,
    and every user turn's dict refers to it. *)
Definition format_anthropic (messages : list message) (body : gmap string val)
    (max_tokens temperature : val) : result string :=
  let '(content_loc, h) := alloc [] in
  h ← attach_image content_loc messages body h;
  let '(anthropic_messages, h) :=
    fold_left (anthropic_step content_loc) messages ([], h) in
  Ok (json_dumps
        (freeze h
           (ODict [("anthropic_version", OVal (VStr "bedrock-2023-05-31"));
                   ("max_tokens", OVal max_tokens);
                   ("messages", OList anthropic_messages);
                   ("temperature", OVal temperature)]))).

Definition ai21_body (messages : list message) (max_tokens temperature : val)
  : val :=
  VDict [("prompt", VStr (transcript_prompt messages));
         ("temperature", temperature);
         ("maxTokens", max_tokens)].

Definition cohere_body (messages : list message) (max_tokens temperature : val)
  : val :=
  VDict [("prompt", VStr (transcript_prompt messages));
         ("temperature", temperature);
         ("max_tokens", max_tokens)].

Definition meta_body (messages : list message) (max_tokens temperature : val)
  : val :=
  VDict [("prompt", VStr (transcript_prompt messages));
         ("temperature", temperature);
         ("max_gen_len", max_tokens)].

Definition mistral_body (messages : list message) (max_tokens temperature : val)
  : val :=
  VDict [("prompt", VStr (mistral_prompt messages));
         ("max_tokens", max_tokens);
         ("temperature", temperature)].

(** Format the message based on the model and list of messages. *)
Definition _format_message (model : string) (messages : list message)
    (body : gmap string val) : result string :=
  let max_tokens := default (VInt 2048) (body !! "max_tokens") in
  let temperature := default (VFloat 5 (-1)) (body !! "temperature") in
  if contains "amazon" model then
    Ok (json_dumps (amazon_body messages max_tokens temperature))
  else if contains "anthropic" model then
    format_anthropic messages body max_tokens temperature
  else if contains "ai21" model then
    Ok (json_dumps (ai21_body messages max_tokens temperature))
  else if contains "cohere" model then
    Ok (json_dumps (cohere_body messages max_tokens temperature))
  else if contains "meta" model then
    Ok (json_dumps (meta_body messages max_tokens temperature))
  else if contains "mistral" model then
    Ok (json_dumps (mistral_body messages max_tokens temperature))
  else Ok "".

End Formatter.

(** ** [Pipeline._extract_output] *)

(** Extract the output from the model response. The [ai21] branch walks the
    document with [.get], the others with subscripts. *)
Definition _extract_output (jsondata : val) (model : string) : result val :=
  if contains "amazon" model then
    r ← getitem_key jsondata "results";
    r ← getitem_idx r 0;
    getitem_key r "outputText"
  else if contains "anthropic" model then
    r ← getitem_key jsondata "content";
    r ← getitem_idx r 0;
    getitem_key r "text"
  else if contains "ai21" model then
    r ← get_method jsondata "completions" VNone;
    r ← getitem_idx r 0;
    r ← get_method r "data" VNone;
    get_method r "text" VNone
  else if contains "cohere" model then
    r ← getitem_key jsondata "generations";
    r ← getitem_idx r 0;
    getitem_key r "text"
  else if contains "meta" model then
    getitem_key jsondata "generation"
  else if contains "mistral" model then
    r ← getitem_key jsondata "outputs";
    r ← getitem_idx r 0;
    getitem_key r "text"
  else Ok (VStr "").

(** ** [Pipeline._stream_response] *)

(** A generator as its consumer sees it: the values it yields, in order, and
    the exception that ends it when it does not run to its end. *)
Definition stream : Type := list val * option exn.

Definition deltas (s : stream) : list val := s.1.

(** [for event in events: yield body(event)]: the first event whose body
    raises ends the generator, and the events after it are never read. *)
Fixpoint for_yield {A : Type} (body : A -> result val) (events : list A)
  : stream :=
  match events with
  | [] => ([], None)
  | event :: rest =>
      match body event with
      | Raise e => ([], Some e)
      | Ok delta =>
          let '(more, e) := for_yield body rest in (delta :: more, e)
      end
  end.

(** [s == v] for a string literal [s]. *)
Definition str_eq (s : string) (v : val) : bool :=
  match v with
  | VStr s' => String.eqb s s'
  | _ => false
  end.

Section Streaming.

(** [json.loads] on a [str] and on [bytes]. *)
Variable json_loads : string -> result val.
Variable json_loads_bytes : bytes -> result val.

(** The body of each loop, on the bytes of one event's chunk. *)
Definition anthropic_event (chunk : bytes) : result val :=
  data ← json_loads_bytes chunk;
  get_method data "completion" (VStr "").

(** The text of one [mistral] event:
    [gen.get('outputs', [{}])[0].get('text', "")]. *)
Definition mistral_line (bc : bytes) : result val :=
  s ← decode_utf8 bc;
  gen ← json_loads s;
  outputs ← get_method gen "outputs" (VList [VDict []]);
  first ← getitem_idx outputs 0;
  get_method first "text" (VStr "").

Definition mistral_event (bc : bytes) : result val :=
  line ← mistral_line bc;
  if str_eq LF line then Ok (VStr "") else Ok line.

Definition cohere_event (chunk : bytes) : result val :=
  data ← json_loads_bytes chunk;
  get_method data "text" (VStr "").

Definition meta_event (chunk : bytes) : result val :=
  s ← decode_utf8 chunk;
  data ← json_loads s;
  get_method data "generation" (VStr "").

Definition default_event (chunk : bytes) : result val :=
  VStr <$> decode_utf8 chunk.

(** Stream the response chunks. [response] is the event stream of
    [response["body"]], each event given by its [event["chunk"]["bytes"]]; the
    result is what the generator yields and how it ends. *)
Definition _stream_response (response : list bytes) (model_provider : string)
  : stream :=
  if String.eqb model_provider "anthropic" then
    for_yield anthropic_event response
  else if String.eqb model_provider "mistral" then
    for_yield mistral_event response
  else if String.eqb model_provider "cohere" then
    for_yield cohere_event response
  else if String.eqb model_provider "meta" then
    for_yield meta_event response
  else
    for_yield default_event response.

(** The provider token of the streaming call in [Pipeline.pipe]:
    [model_id.split(".")[0]]. *)
Definition provider_token (model_id : string) : string :=
  hd EmptyString (split "." model_id).

(** The streaming call of [Pipeline.pipe] (disabled in the source by a
    comment): [self._stream_response(response, model_id.split(".")[0])]. *)
Definition pipe_stream (response : list bytes) (model_id : string) : stream :=
  _stream_response response (provider_token model_id).

End Streaming.

(** ** A JSON reader for concrete chunks

    The theorems below hold for every [json.loads]. Where one of them is run
    on concrete bytes, [json.loads] is this reader: it accepts the documents
    built from objects, arrays, strings with the one-letter escapes, integers,
    [true], [false] and [null], encoded in UTF-8, as [json.loads] does, and it
    answers [JSONDecodeError] on every other text. Fractions, exponents and
    [\u] escapes, byte order marks and the UTF-16 and UTF-32 encodings are
    outside of what it reads. [json.dumps] is the writer [dumps], with the
    default separators and [ensure_ascii]. *)
Module Json.

(** The double quote. *)
Definition dquote : ascii := ascii_of_nat 34.

Definition is_ws (c : ascii) : bool :=
  let n := N_of_ascii c in
  ((n =? 32) || (n =? 9) || (n =? 10) || (n =? 13))%N.

Fixpoint skip_ws (s : string) : string :=
  match s with
  | String c rest => if is_ws c then skip_ws rest else s
  | EmptyString => s
  end.

Definition unescape (c : ascii) : option ascii :=
  if Ascii.eqb c dquote then Some dquote
  else if Ascii.eqb c "\" then Some "\"%char
  else if Ascii.eqb c "/" then Some "/"%char
  else if Ascii.eqb c "b" then Some (ascii_of_nat 8)
  else if Ascii.eqb c "f" then Some (ascii_of_nat 12)
  else if Ascii.eqb c "n" then Some (ascii_of_nat 10)
  else if Ascii.eqb c "r" then Some (ascii_of_nat 13)
  else if Ascii.eqb c "t" then Some (ascii_of_nat 9)
  else None.

(** The text of a string literal, read after its opening quote. *)
Fixpoint read_string (s : string) : option (string * string) :=
  match s with
  | EmptyString => None
  | String c rest =>
      if Ascii.eqb c dquote then Some (EmptyString, rest)
      else if Ascii.eqb c "\" then
        match rest with
        | EmptyString => None
        | String e rest' =>
            match unescape e, read_string rest' with
            | Some c', Some (text, r) => Some (String c' text, r)
            | _, _ => None
            end
        end
      else if (N_of_ascii c <? 32)%N then None
      else
        match read_string rest with
        | Some (text, r) => Some (String c text, r)
        | None => None
        end
  end.

Definition digit (c : ascii) : option Z :=
  let n := N_of_ascii c in
  if ((48 <=? n) && (n <=? 57))%N then Some (Z.of_N n - 48) else None.

(** The digits at the front of [s], as a number, with what follows them. *)
Fixpoint read_digits (acc : Z) (s : string) : Z * string :=
  match s with
  | String c rest =>
      match digit c with
      | Some d => read_digits (10 * acc + d) rest
      | None => (acc, s)
      end
  | EmptyString => (acc, s)
  end.

(** An integer: [0], or digits that do not start with [0]. A fraction or an
    exponent after it is refused. *)
Definition read_int (s : string) : option (Z * string) :=
  match s with
  | String c rest =>
      match digit c with
      | Some d =>
          let '(n, r) := if d =? 0 then (0, rest) else read_digits d rest in
          match r with
          | String c' _ =>
              if Ascii.eqb c' "." || Ascii.eqb c' "e" || Ascii.eqb c' "E"
              then None else Some (n, r)
          | EmptyString => Some (n, r)
          end
      | None => None
      end
  | EmptyString => None
  end.

(** [s] without the prefix [word], when it starts with it. *)
Fixpoint strip (word s : string) : option string :=
  match word, s with
  | EmptyString, _ => Some s
  | String a word', String b s' => if Ascii.eqb a b then strip word' s' else None
  | String _ _, EmptyString => None
  end.

Fixpoint read_value (fuel : nat) (s : string) : option (val * string) :=
  match fuel with
  | O => None
  | S n =>
      match skip_ws s with
      | EmptyString => None
      | String c rest as s' =>
          if Ascii.eqb c "{" then
            match skip_ws rest with
            | String c' r =>
                if Ascii.eqb c' "}" then Some (VDict [], r)
                else read_members n [] rest
            | EmptyString => None
            end
          else if Ascii.eqb c "[" then
            match skip_ws rest with
            | String c' r =>
                if Ascii.eqb c' "]" then Some (VList [], r)
                else read_elements n [] rest
            | EmptyString => None
            end
          else if Ascii.eqb c dquote then
            match read_string rest with
            | Some (text, r) => Some (VStr text, r)
            | None => None
            end
          else if Ascii.eqb c "-" then
            match read_int rest with
            | Some (k, r) => Some (VInt (- k), r)
            | None => None
            end
          else
            match strip "null" s', strip "true" s', strip "false" s' with
            | Some r, _, _ => Some (VNone, r)
            | _, Some r, _ => Some (VBool true, r)
            | _, _, Some r => Some (VBool false, r)
            | None, None, None =>
                match read_int s' with
                | Some (k, r) => Some (VInt k, r)
                | None => None
                end
            end
      end
  end
with read_elements (fuel : nat) (acc : list val) (s : string)
  : option (val * string) :=
  match fuel with
  | O => None
  | S n =>
      match read_value n s with
      | Some (v, r) =>
          match skip_ws r with
          | String c r' =>
              if Ascii.eqb c "," then read_elements n (acc ++ [v]) r'
              else if Ascii.eqb c "]" then Some (VList (acc ++ [v]), r')
              else None
          | EmptyString => None
          end
      | None => None
      end
  end
with read_members (fuel : nat) (acc : list (string * val)) (s : string)
  : option (val * string) :=
  match fuel with
  | O => None
  | S n =>
      match skip_ws s with
      | String q r0 =>
          if Ascii.eqb q dquote then
            match read_string r0 with
            | Some (k, r1) =>
                match skip_ws r1 with
                | String c r2 =>
                    if Ascii.eqb c ":" then
                      match read_value n r2 with
                      | Some (v, r3) =>
                          match skip_ws r3 with
                          | String c' r4 =>
                              if Ascii.eqb c' ","
                              then read_members n (dict_set acc k v) r4
                              else if Ascii.eqb c' "}"
                              then Some (VDict (dict_set acc k v), r4)
                              else None
                          | EmptyString => None
                          end
                      | None => None
                      end
                    else None
                | EmptyString => None
                end
            | None => None
            end
          else None
      | EmptyString => None
      end
  end.

(** [json.loads(s)] for a [str]: one value, then nothing but white space. *)
Definition loads (s : string) : result val :=
  match read_value (2 * String.length s + 2) s with
  | Some (v, rest) =>
      match skip_ws rest with
      | EmptyString => Ok v
      | String _ _ => Raise JSONDecodeError
      end
  | None => Raise JSONDecodeError
  end.

(** [json.loads(b)] for [bytes] in UTF-8. *)
Definition loads_bytes (b : bytes) : result val :=
  s ← decode_utf8 b; loads s.

(** A literal with each apostrophe turned into a double quote. *)
Fixpoint quoted (s : string) : string :=
  match s with
  | EmptyString => EmptyString
  | String c rest =>
      String (if Ascii.eqb c "'" then dquote else c) (quoted rest)
  end.

(** The bytes of an ASCII chunk, written with apostrophes for its double
    quotes. *)
Definition chunk (s : string) : bytes := list_byte_of_string (quoted s).

(** *** The writer *)

Definition hex_digit (n : N) : ascii :=
  default "0"%char (String.get (N.to_nat n) "0123456789abcdef").

(** [\uXXXX] for a 16-bit unit. *)
Definition u_escape (n : N) : string :=
  "\u" +:+ String (hex_digit (n / 4096 mod 16))
             (String (hex_digit (n / 256 mod 16))
                (String (hex_digit (n / 16 mod 16))
                   (String (hex_digit (n mod 16)) EmptyString))).

(** The escape of one code point: the short escapes, [\uXXXX] outside of the
    printable ASCII range, a surrogate pair above U+FFFF. *)
Definition escape_codepoint (n : N) : string :=
  if (n =? 34)%N then "\" +:+ String dquote EmptyString
  else if (n =? 92)%N then "\\"
  else if (n =? 10)%N then "\n"
  else if (n =? 13)%N then "\r"
  else if (n =? 9)%N then "\t"
  else if (n =? 8)%N then "\b"
  else if (n =? 12)%N then "\f"
  else if between 32 126 n then String (ascii_of_N n) EmptyString
  else if (n <? 65536)%N then u_escape n
  else u_escape (55296 + (n - 65536) / 1024)%N
         +:+ u_escape (56320 + (n - 65536) mod 1024)%N.

(** The code points of a well-formed UTF-8 byte sequence. *)
Fixpoint codepoints (bs : list N) : list N :=
  match bs with
  | [] => []
  | b0 :: r0 =>
      if (b0 <? 128)%N then b0 :: codepoints r0
      else
        match r0 with
        | [] => [b0]
        | b1 :: r1 =>
            if (b0 <? 224)%N then
              ((b0 mod 32) * 64 + b1 mod 64)%N :: codepoints r1
            else
              match r1 with
              | [] => [b0]
              | b2 :: r2 =>
                  if (b0 <? 240)%N then
                    ((b0 mod 16) * 4096 + (b1 mod 64) * 64 + b2 mod 64)%N
                      :: codepoints r2
                  else
                    match r2 with
                    | [] => [b0]
                    | b3 :: r3 =>
                        ((b0 mod 8) * 262144 + (b1 mod 64) * 4096
                         + (b2 mod 64) * 64 + b3 mod 64)%N :: codepoints r3
                    end
              end
        end
  end.

Definition dumps_str (s : string) : string :=
  String dquote
    (String.concat ""
       (map escape_codepoint
          (codepoints (map Byte.to_N (list_byte_of_string s))))
     +:+ String dquote EmptyString).

Definition dumps_int (n : Z) : string := NilZero.string_of_int (Z.to_int n).

Fixpoint zeros (n : nat) : string :=
  match n with
  | O => EmptyString
  | S n' => String "0" (zeros n')
  end.

(** [m] without its trailing zeros, each one moved into the exponent. *)
Fixpoint normalise (fuel : nat) (m e : Z) : Z * Z :=
  match fuel with
  | O => (m, e)
  | S fuel' =>
      if (m mod 10 =? 0) && negb (m =? 0) then normalise fuel' (m / 10) (e + 1)
      else (m, e)
  end.

Definition exponent_digits (x : Z) : string :=
  (if x <? 0 then "-" else "+")
    +:+ (if Z.abs x <? 10 then "0" else "") +:+ dumps_int (Z.abs x).

(** [float.__repr__]: the digits with a point in them when the point falls
    within sixteen places, and with an exponent otherwise. *)
Definition dumps_float (m e : Z) : string :=
  if m =? 0 then "0.0"
  else
    let '(m', e') := normalise (Z.to_nat (Z.log2 (Z.abs m))) (Z.abs m) e in
    let ds := dumps_int m' in
    let n := Z.of_nat (String.length ds) in
    let decpt := n + e' in
    (if m <? 0 then "-" else "") +:+
    (if (decpt <=? -4) || (16 <? decpt) then
       String.substring 0 1 ds
         +:+ (if n =? 1 then "" else "." +:+ String.substring 1 (String.length ds - 1) ds)
         +:+ "e" +:+ exponent_digits (decpt - 1)
     else if decpt <=? 0 then "0." +:+ zeros (Z.to_nat (- decpt)) +:+ ds
     else if n <=? decpt then ds +:+ zeros (Z.to_nat (decpt - n)) +:+ ".0"
     else String.substring 0 (Z.to_nat decpt) ds
            +:+ "." +:+ String.substring (Z.to_nat decpt) (Z.to_nat (n - decpt)) ds).

(** [json.dumps(v)]. *)
Fixpoint dumps (v : val) : string :=
  match v with
  | VNone => "null"
  | VBool true => "true"
  | VBool false => "false"
  | VInt n => dumps_int n
  | VFloat m e => dumps_float m e
  | VStr s => dumps_str s
  | VList xs => "[" +:+ String.concat ", " (map dumps xs) +:+ "]"
  | VDict kvs =>
      "{" +:+ String.concat ", "
                (map (fun kv => dumps_str kv.1 +:+ ": " +:+ dumps kv.2) kvs)
          +:+ "}"
  end.

End Json.

(** ** Provider families *)

Inductive family : Type :=
| Amazon | Anthropic | AI21 | Cohere | Meta | Mistral | Unknown.

#[global] Instance family_eq_dec : EqDecision family.
Proof. solve_decision. Defined.

(** The marker each branch of the two [if]/[elif] chains looks for. *)
Definition marker (f : family) : option string :=
  match f with
  | Amazon => Some "amazon"
  | Anthropic => Some "anthropic"
  | AI21 => Some "ai21"
  | Cohere => Some "cohere"
  | Meta => Some "meta"
  | Mistral => Some "mistral"
  | Unknown => None
  end.

(** The place of a family's test in the chains. *)
Definition priority (f : family) : nat :=
  match f with
  | Amazon => 0 | Anthropic => 1 | AI21 => 2 | Cohere => 3 | Meta => 4
  | Mistral => 5 | Unknown => 6
  end%nat.

Definition chain : list family := [Amazon; Anthropic; AI21; Cohere; Meta; Mistral].

(** [needle] occurs in [hay], at the place given by what is before and
    after it. *)
Definition occurs (needle hay : string) : Prop :=
  exists before after, hay = before +:+ needle +:+ after.

(** The model identifier holds the marker of [f], anywhere. *)
Definition has_marker (f : family) (model : string) : Prop :=
  exists mk, marker f = Some mk /\ occurs mk model.

Definition marked (model : string) (f : family) : bool :=
  match marker f with
  | Some mk => contains mk model
  | None => false
  end.

(** The classifier of the specification: the markers are tried in the order
    of the chain, the first one found names the family, none found is
    [Unknown]. *)
Definition classify (model : string) : family :=
  default Unknown (List.find (marked model) chain).

(** The branch of [_format_message] that belongs to a family. *)
Definition format_as (json_dumps : val -> string) (requests_get : val -> fetched)
    (f : family) (messages : list message) (body : gmap string val)
  : result string :=
  let max_tokens := default (VInt 2048) (body !! "max_tokens") in
  let temperature := default (VFloat 5 (-1)) (body !! "temperature") in
  match f with
  | Amazon => Ok (json_dumps (amazon_body messages max_tokens temperature))
  | Anthropic =>
      format_anthropic json_dumps requests_get messages body max_tokens temperature
  | AI21 => Ok (json_dumps (ai21_body messages max_tokens temperature))
  | Cohere => Ok (json_dumps (cohere_body messages max_tokens temperature))
  | Meta => Ok (json_dumps (meta_body messages max_tokens temperature))
  | Mistral => Ok (json_dumps (mistral_body messages max_tokens temperature))
  | Unknown => Ok ""
  end.

(** A step of a field path: a key of an object or a place in an array. *)
Inductive step : Type :=
| Key (k : string)
| Idx (i : nat).

(** The field path of the specification's table, per family. *)
Definition path (f : family) : list step :=
  match f with
  | Amazon => [Key "results"; Idx 0; Key "outputText"]
  | Anthropic => [Key "content"; Idx 0; Key "text"]
  | AI21 => [Key "completions"; Idx 0; Key "data"; Key "text"]
  | Cohere => [Key "generations"; Idx 0; Key "text"]
  | Meta => [Key "generation"]
  | Mistral => [Key "outputs"; Idx 0; Key "text"]
  | Unknown => []
  end.

(** The field at a path of a document: a key is looked up in an object, a
    place in an array; the field is missing when the document has another
    shape on the way. *)
Fixpoint field (p : list step) (doc : val) : option val :=
  match p with
  | [] => Some doc
  | Key k :: p' =>
      match doc with
      | VDict kvs => dict_lookup kvs k ≫= field p'
      | _ => None
      end
  | Idx i :: p' =>
      match doc with
      | VList xs => xs !! i ≫= field p'
      | _ => None
      end
  end.

(** The branch of [_extract_output] that belongs to a family. *)
Definition extract_as (f : family) (jsondata : val) : result val :=
  match f with
  | Amazon =>
      r ← getitem_key jsondata "results";
      r ← getitem_idx r 0;
      getitem_key r "outputText"
  | Anthropic =>
      r ← getitem_key jsondata "content";
      r ← getitem_idx r 0;
      getitem_key r "text"
  | AI21 =>
      r ← get_method jsondata "completions" VNone;
      r ← getitem_idx r 0;
      r ← get_method r "data" VNone;
      get_method r "text" VNone
  | Cohere =>
      r ← getitem_key jsondata "generations";
      r ← getitem_idx r 0;
      getitem_key r "text"
  | Meta => getitem_key jsondata "generation"
  | Mistral =>
      r ← getitem_key jsondata "outputs";
      r ← getitem_idx r 0;
      getitem_key r "text"
  | Unknown => Ok (VStr "")
  end.

(** The text blocks of the user turns, in order. *)
Definition user_texts (messages : list message) : list val :=
  map (fun m => text_block (content m))
    (List.filter (fun m => String.eqb (role m) "user") messages).

(** The turns of the Anthropic payload when every user turn shows the list
    [shared] as its content. *)
Definition anthropic_turns (shared : list val) (messages : list message)
  : list val :=
  flat_map
    (fun m =>
       if String.eqb (role m) "user" then
         [VDict [("role", VStr "user"); ("content", VList shared)]]
       else if String.eqb (role m) "assistant" then
         [VDict [("role", VStr "assistant"); ("content", VStr (content m))]]
       else [])
    messages.

(** The blocks the download leaves in [content] before the loop. *)
Definition image_blocks (requests_get : val -> fetched)
    (messages : list message) (body : gmap string val) : result (list val) :=
  if wants_image messages body then
    match body !! "image_url" with
    | None => Raise KeyError
    | Some image_url =>
        match requests_get image_url with
        | Fetched data => Ok [image_block (b64encode data)]
        | RequestException => Ok []
        | FetchRaised e => Raise e
        end
    end
  else Ok [].

(** The JSON document the loop of a provider token reads from one chunk:
    [json.loads] on the bytes for [anthropic] and [cohere], on the decoded
    text for [mistral] and [meta]. *)
Definition event_document (json_loads : string -> result val)
    (json_loads_bytes : bytes -> result val) (model_provider : string)
    (chunk : bytes) : result val :=
  if String.eqb model_provider "mistral" || String.eqb model_provider "meta"
  then s ← decode_utf8 chunk; json_loads s
  else json_loads_bytes chunk.

(** The provider tokens that have a branch of their own in
    [_stream_response]. *)
Definition streaming_tokens : list string :=
  ["anthropic"; "mistral"; "cohere"; "meta"].

(** The body of the loop that [_stream_response] runs for a provider
    token. *)
Definition event_body (json_loads : string -> result val)
    (json_loads_bytes : bytes -> result val) (model_provider : string)
  : bytes -> result val :=
  if String.eqb model_provider "anthropic" then anthropic_event json_loads_bytes
  else if String.eqb model_provider "mistral" then mistral_event json_loads
  else if String.eqb model_provider "cohere" then cohere_event json_loads_bytes
  else if String.eqb model_provider "meta" then meta_event json_loads
  else default_event.

(** ** [Pipeline.update_pipelines] *)

(** [for x in v]: the elements a loop reads from a value; a dict gives its
    keys, a string its characters. *)
Definition iterate (v : val) : result (list val) :=
  match v with
  | VList xs => Ok xs
  | VDict kvs => Ok (map (fun kv => VStr kv.1) kvs)
  | VStr s => Ok (map VStr (str_chars s))
  | _ => Raise TypeError
  end.

(** [{"id": model["modelId"], "name": model["modelName"]}] *)
Definition pipeline_entry (model : val) : result val :=
  id ← getitem_key model "modelId";
  name ← getitem_key model "modelName";
  Ok (VDict [("id", id); ("name", name)]).

(** The list [update_pipelines] falls back on. *)
Definition error_pipelines : list val :=
  [VDict [("id", VStr "error");
          ("name",
           VStr "Could not fetch models from AWS Bedrock, please check your AWS credentials and region configuration.")]].

(** Update available models from AWS Bedrock: the new value of
    [self.pipelines]. [list_foundation_models] is the answer of the call
    [self.client.list_foundation_models(...)], [None] when the call raises;
    [except Exception] catches whatever the [try] block raises. *)
Definition update_pipelines (list_foundation_models : option val) : list val :=
  match list_foundation_models with
  | None => error_pipelines
  | Some response =>
      match (models ← getitem_key response "modelSummaries";
             models ← iterate models;
             mapM pipeline_entry models) with
      | Ok pipelines => pipelines
      | Raise _ => error_pipelines
      end
  end.

(** ** [Pipeline.pipe] *)

(** What [self.runtime_client.invoke_model(...)] and
    [response.get("body").read()] come to: the bytes of the body, or an
    exception, given by its [str]. *)
Inductive invoked : Type :=
| Responded (body : bytes)
| InvokeFailed (message : string).

Section Pipe.

Variable json_dumps : val -> string.
Variable requests_get : val -> fetched.
Variable json_loads_bytes : bytes -> result val.
(** The model invocation, on the encoded payload and the model identifier. *)
Variable invoke_model : bytes -> string -> invoked.
(** [str(e)] *)
Variable str_of_exception : exn -> string.

(** [f"An error occurred: {str(e)}"] *)
Definition error_message (message : string) : val :=
  VStr ("An error occurred: " +:+ message).

(** The whole-response call. The streaming branch is disabled in the source,
    so [body.get("stream")] is not read; [user_message] is not used. *)
Definition pipe (user_message model_id : string) (messages : list message)
    (body : gmap string val) : val :=
  match _format_message json_dumps requests_get model_id messages body with
  | Raise e => error_message (str_of_exception e)
  | Ok payload =>
      match invoke_model (list_byte_of_string payload) model_id with
      | InvokeFailed message => error_message message
      | Responded raw =>
          match (response_body ← json_loads_bytes raw;
                 _extract_output response_body model_id) with
          | Ok output => output
          | Raise e => error_message (str_of_exception e)
          end
      end
  end.

End Pipe.

(** ** What one turn adds to a prompt *)

Definition is_user (m : message) : bool := String.eqb (role m) "user".

Definition is_assistant (m : message) : bool := String.eqb (role m) "assistant".

(** The line of a turn in the [ai21], [cohere] and [meta] prompts. *)
Definition transcript_line (m : message) : string :=
  role m +:+ ": " +:+ content m +:+ LF.

(** The piece of a turn in the [mistral] prompt: nothing for a turn that is
    neither of the user nor of the assistant. *)
Definition mistral_piece (m : message) : string :=
  if is_user m then "[INST] " +:+ content m +:+ " [/INST]"
  else if is_assistant m then content m
  else "".

(** A model service for concrete runs, which answers every invocation with
    the same bytes, and a rendering of the exceptions for concrete runs: it
    names the exception, where [str(e)] gives the message of the instance.
    The theorems on [pipe] hold for every rendering. *)
Definition answering (raw : bytes) : bytes -> string -> invoked :=
  fun _ _ => Responded raw.

Definition exception_text (e : exn) : string :=
  match e with
  | KeyError => "KeyError"
  | IndexError => "list index out of range"
  | TypeError => "TypeError"
  | AttributeError => "AttributeError"
  | JSONDecodeError => "Expecting value"
  | UnicodeDecodeError => "UnicodeDecodeError"
  | ImportError => "ImportError"
  end.

(** Two states of the network, for concrete runs: every download answers
    the same bytes, or every download fails with a [RequestException]. *)
Definition serving (data : bytes) : val -> fetched := fun _ => Fetched data.
Definition offline : val -> fetched := fun _ => RequestException.

(** A third state, for concrete runs: every download raises [e], which is not
    a [RequestException]. *)
Definition failing (e : exn) : val -> fetched := fun _ => FetchRaised e.

(** * Properties *)

(** ** Containment *)

Lemma append_String (c : ascii) (s t : string) :
  String c s +:+ t = String c (s +:+ t).
Proof. reflexivity. Qed.

Lemma append_empty (t : string) : "" +:+ t = t.
Proof. reflexivity. Qed.

Ltac unfold_append :=
  rewrite ?append_String, ?append_empty in *.

Lemma prefix_occurs (p s : string) :
  String.prefix p s = true <-> exists t, s = p +:+ t.
Proof.
  revert s; induction p as [|a p IH]; intros s; simpl.
  - destruct s; split; eauto.
  - destruct s as [|c s]; simpl.
    + split; [discriminate | intros [t Ht]; unfold_append; discriminate].
    + destruct (ascii_dec a c) as [->|Hne].
      * rewrite IH. split; intros [t Ht]; exists t; unfold_append; congruence.
      * split; [discriminate | intros [t Ht]; unfold_append; congruence].
Qed.

(** [contains] is Python's [in]: true exactly when the needle occurs. *)
Lemma contains_occurs (needle hay : string) :
  contains needle hay = true <-> occurs needle hay.
Proof.
  induction hay as [|c hay IH].
  - cbn [contains]. rewrite orb_false_r, prefix_occurs. split.
    + intros [t Ht]. exists "", t. exact Ht.
    + intros (pre & post & H). destruct pre; unfold_append.
      * eauto.
      * discriminate.
  - cbn [contains]. rewrite orb_true_iff, IH, prefix_occurs. split.
    + intros [[t Ht] | (pre & post & H)].
      * exists "", t. exact Ht.
      * exists (String c pre), post. unfold_append. now rewrite H.
    + intros (pre & post & H). destruct pre as [|a pre]; unfold_append.
      * left. eauto.
      * right. exists pre, post. congruence.
Qed.

Lemma marked_has_marker (model : string) (f : family) :
  marked model f = true <-> has_marker f model.
Proof.
  unfold marked, has_marker. destruct (marker f) as [mk|].
  - rewrite contains_occurs. split; [eauto|].
    intros (mk' & [= <-] & H). exact H.
  - split; [discriminate | intros (mk & [=] & _)].
Qed.


(** ** The two chains follow the classifier *)

Lemma format_dispatch (json_dumps : val -> string) (requests_get : val -> fetched)
    (model : string) (messages : list message) (body : gmap string val) :
  _format_message json_dumps requests_get model messages body
  = format_as json_dumps requests_get (classify model) messages body.
Proof.
  unfold _format_message, format_as, classify, chain.
  cbn [List.find]. unfold marked. cbn [marker].
  repeat (match goal with
          | |- context [contains ?mk model] => destruct (contains mk model)
          end; [reflexivity|]).
  reflexivity.
Qed.

Lemma extract_dispatch (jsondata : val) (model : string) :
  _extract_output jsondata model = extract_as (classify model) jsondata.
Proof.
  unfold _extract_output, extract_as, classify, chain.
  cbn [List.find]. unfold marked. cbn [marker].
  repeat (match goal with
          | |- context [contains ?mk model] => destruct (contains mk model)
          end; [reflexivity|]).
  reflexivity.
Qed.

(** The first marker of the chain that occurs names the family. *)
Lemma classify_first (f : family) (model : string) :
  has_marker f model ->
  (forall f', (priority f' < priority f)%nat -> ~ has_marker f' model) ->
  classify model = f.
Proof.
  intros Hf Hearlier. apply marked_has_marker in Hf.
  assert (He : forall f', (priority f' < priority f)%nat -> marked model f' = false).
  { intros f' Hlt. destruct (marked model f') eqn:E; [|reflexivity].
    apply marked_has_marker in E. destruct (Hearlier f' Hlt E). }
  unfold classify, chain. cbn [List.find].
  destruct f;
    repeat match goal with
           | |- context [marked model ?g] =>
               first [rewrite Hf | rewrite (He g) by (cbn; lia)]
           end;
    reflexivity.
Qed.

Lemma classify_single (f : family) (model : string) :
  has_marker f model ->
  (forall f', f' <> f -> ~ has_marker f' model) ->
  classify model = f.
Proof.
  intros Hf Hothers. apply classify_first; [exact Hf|].
  intros f' Hlt. apply Hothers. intros ->. lia.
Qed.

Lemma classify_none (model : string) :
  (forall f, ~ has_marker f model) -> classify model = Unknown.
Proof.
  intros Hnone.
  assert (He : forall f, marked model f = false).
  { intros f. destruct (marked model f) eqn:E; [|reflexivity].
    apply marked_has_marker in E. destruct (Hnone f E). }
  unfold classify, chain. cbn [List.find]. now rewrite !He.
Qed.

(** What [classify] answers is the first marker that occurs. *)
Lemma classify_has_marker (model : string) :
  classify model <> Unknown -> has_marker (classify model) model.
Proof.
  unfold classify, chain. cbn [List.find].
  repeat (destruct (marked model _) eqn:E;
          [intros _; now apply marked_has_marker|clear E]).
  intros H. now destruct H.
Qed.

(** Decides [has_marker] on a concrete identifier. *)
Ltac no_marker :=
  let H := fresh in
  intros H; apply marked_has_marker in H; vm_compute in H; discriminate H.

(** C3: a model identifier that holds exactly one family marker, at any
    place, is formatted and decoded by that family's branch; one that holds
    no marker is formatted to the empty payload and decoded to the empty
    string, and neither raises. *)
Theorem C3_single_marker_selects_family
    (json_dumps : val -> string) (requests_get : val -> fetched)
    (model : string) (messages : list message) (body : gmap string val)
    (jsondata : val) :
  (forall f,
      has_marker f model ->
      (forall f', f' <> f -> ~ has_marker f' model) ->
      _format_message json_dumps requests_get model messages body
      = format_as json_dumps requests_get f messages body
      /\ _extract_output jsondata model = extract_as f jsondata)
  /\ ((forall f, ~ has_marker f model) ->
      _format_message json_dumps requests_get model messages body = Ok ""
      /\ _extract_output jsondata model = Ok (VStr "")).
Proof.
  rewrite format_dispatch, extract_dispatch. split.
  - intros f Hf Hothers. now rewrite (classify_single f model Hf Hothers).
  - intros Hnone. now rewrite (classify_none model Hnone).
Qed.

(** C3 at [us.anthropic.claude-3-haiku], which holds [anthropic] alone, and
    at [gpt-4o], which holds no marker. *)
Lemma C3_witness :
  (_format_message Json.dumps offline "us.anthropic.claude-3-haiku" [] ∅
   = format_as Json.dumps offline Anthropic [] ∅
   /\ _extract_output VNone "us.anthropic.claude-3-haiku"
      = extract_as Anthropic VNone)
  /\ (_format_message Json.dumps offline "gpt-4o" [] ∅ = Ok ""
      /\ _extract_output VNone "gpt-4o" = Ok (VStr "")).
Proof.
  split.
  - apply (proj1 (C3_single_marker_selects_family
                    Json.dumps offline "us.anthropic.claude-3-haiku" [] ∅ VNone)
             Anthropic).
    + exists "anthropic". split; [reflexivity|].
      exists "us.", ".claude-3-haiku". reflexivity.
    + intros f' Hne. destruct f'; try no_marker. now destruct Hne.
  - apply (proj2 (C3_single_marker_selects_family
                    Json.dumps offline "gpt-4o" [] ∅ VNone)).
    intros f. destruct f; no_marker.
Defined.

(** C9: when several markers occur, the chain order amazon, anthropic, ai21,
    cohere, meta, mistral decides: the family whose marker occurs and has no
    marker of an earlier family beside it is the one both the formatter and
    the whole-response decoder use. *)
Theorem C9_first_marker_in_chain_order_wins
    (json_dumps : val -> string) (requests_get : val -> fetched)
    (f : family) (model : string) (messages : list message)
    (body : gmap string val) (jsondata : val) :
  has_marker f model ->
  (forall f', (priority f' < priority f)%nat -> ~ has_marker f' model) ->
  _format_message json_dumps requests_get model messages body
  = format_as json_dumps requests_get f messages body
  /\ _extract_output jsondata model = extract_as f jsondata.
Proof.
  intros Hf Hearlier.
  now rewrite format_dispatch, extract_dispatch, (classify_first f model Hf Hearlier).
Qed.

(** C9 at [mistral.meta-mix], which holds [meta] and [mistral]: Meta is the
    first of the two in the chain. *)
Lemma C9_witness :
  has_marker Meta "mistral.meta-mix" /\ has_marker Mistral "mistral.meta-mix"
  /\ _format_message Json.dumps offline "mistral.meta-mix"
       [Message "user" "hi"] ∅
     = format_as Json.dumps offline Meta [Message "user" "hi"] ∅
  /\ _extract_output (VDict [("generation", VStr "ok")]) "mistral.meta-mix"
     = extract_as Meta (VDict [("generation", VStr "ok")]).
Proof.
  assert (Hmeta : has_marker Meta "mistral.meta-mix").
  { exists "meta". split; [reflexivity|]. exists "mistral.", "-mix". reflexivity. }
  split; [exact Hmeta|]. split.
  { exists "mistral". split; [reflexivity|]. exists "", ".meta-mix". reflexivity. }
  apply (C9_first_marker_in_chain_order_wins Json.dumps offline Meta
           "mistral.meta-mix" [Message "user" "hi"] ∅
           (VDict [("generation", VStr "ok")]) Hmeta).
  intros f' Hlt. destruct f'; try no_marker; cbn in Hlt; lia.
Defined.

(** ** The prompts *)

Lemma append_assoc (s t u : string) : (s +:+ t) +:+ u = s +:+ (t +:+ u).
Proof. induction s as [|c s IH]; unfold_append; [reflexivity | now rewrite IH]. Qed.

Lemma append_empty_r (s : string) : s +:+ "" = s.
Proof. induction s as [|c s IH]; unfold_append; [reflexivity | now rewrite IH]. Qed.

Lemma concat_cons (x : string) (xs : list string) :
  String.concat "" (x :: xs) = x +:+ String.concat "" xs.
Proof.
  destruct xs as [|y ys]; cbn [String.concat].
  - now rewrite append_empty_r.
  - now rewrite append_empty.
Qed.

(** The [amazon] loop, from any prompt so far. *)
Lemma amazon_loop (messages : list message) (prompt : string) :
  fold_left
    (fun prompt m =>
       if String.eqb (role m) "user" then prompt +:+ (content m +:+ " ")
       else prompt)
    messages prompt
  = prompt
    +:+ String.concat ""
          (map (fun m => content m +:+ " ")
             (List.filter (fun m => String.eqb (role m) "user") messages)).
Proof.
  revert prompt. induction messages as [|m messages IH]; intros prompt.
  - cbn. now rewrite append_empty_r.
  - cbn [fold_left List.filter]. rewrite IH.
    destruct (String.eqb (role m) "user"); [|reflexivity].
    cbn [map]. now rewrite concat_cons, !append_assoc.
Qed.

(** C7: for the Amazon family the prompt is made of the user turns only,
    each content followed by one space, in order; the turns user "hi",
    assistant "hello", user "there" give the prompt "hi there ". *)
Theorem C7_amazon_prompt_is_user_contents_spaced
    (json_dumps : val -> string) (requests_get : val -> fetched)
    (model : string) (messages : list message) (body : gmap string val) :
  has_marker Amazon model ->
  let config :=
    VDict [("maxTokenCount", default (VInt 2048) (body !! "max_tokens"));
           ("stopSequences", VList []);
           ("temperature", default (VFloat 5 (-1)) (body !! "temperature"))] in
  _format_message json_dumps requests_get model messages body
  = Ok (json_dumps
          (VDict [("inputText",
                   VStr (String.concat ""
                           (map (fun m => content m +:+ " ")
                              (List.filter
                                 (fun m => String.eqb (role m) "user")
                                 messages))));
                  ("textGenerationConfig", config)]))
  /\ _format_message json_dumps requests_get model
       [Message "user" "hi"; Message "assistant" "hello"; Message "user" "there"]
       body
     = Ok (json_dumps
             (VDict [("inputText", VStr "hi there ");
                     ("textGenerationConfig", config)])).
Proof.
  intros Hamazon config.
  assert (Hc : classify model = Amazon).
  { apply classify_first; [exact Hamazon|]. intros f' Hlt. cbn in Hlt. lia. }
  rewrite !format_dispatch, Hc. unfold format_as, amazon_body, amazon_prompt.
  split; [|reflexivity].
  now rewrite amazon_loop, append_empty.
Qed.

(** C7 at [amazon.titan-text-express-v1] with the three turns of the
    example. *)
Lemma C7_witness :
  let turns :=
    [Message "user" "hi"; Message "assistant" "hello"; Message "user" "there"] in
  let config :=
    VDict [("maxTokenCount", VInt 2048); ("stopSequences", VList []);
           ("temperature", VFloat 5 (-1))] in
  _format_message Json.dumps offline "amazon.titan-text-express-v1" turns ∅
  = Ok (Json.dumps
          (VDict [("inputText",
                   VStr (String.concat ""
                           (map (fun m => content m +:+ " ")
                              (List.filter
                                 (fun m => String.eqb (role m) "user") turns))));
                  ("textGenerationConfig", config)]))
  /\ _format_message Json.dumps offline "amazon.titan-text-express-v1" turns ∅
     = Ok (Json.dumps
             (VDict [("inputText", VStr "hi there ");
                     ("textGenerationConfig", config)])).
Proof.
  refine (C7_amazon_prompt_is_user_contents_spaced Json.dumps offline
            "amazon.titan-text-express-v1" _ ∅ _).
  exists "amazon". split; [reflexivity|].
  exists "", ".titan-text-express-v1". reflexivity.
Defined.

(** The bytes [pipe] sends for the turns of C7, with the default
    parameters. *)
Example amazon_payload_text :
  _format_message Json.dumps offline "amazon.titan-text-express-v1"
    [Message "user" "hi"; Message "assistant" "hello"; Message "user" "there"] ∅
  = Ok (Json.quoted
          "{'inputText': 'hi there ', 'textGenerationConfig': {'maxTokenCount': 2048, 'stopSequences': [], 'temperature': 0.5}}").
Proof. vm_compute. reflexivity. Qed.

(** C8: on the empty turn list the formatter returns, for every model
    identifier and every body, and never raises: each family's payload with
    the empty prompt (the empty list of messages for Anthropic), and the empty
    payload for an unknown family. *)
Theorem C8_empty_turn_list_is_formatted
    (json_dumps : val -> string) (requests_get : val -> fetched)
    (model : string) (body : gmap string val) :
  let max_tokens := default (VInt 2048) (body !! "max_tokens") in
  let temperature := default (VFloat 5 (-1)) (body !! "temperature") in
  _format_message json_dumps requests_get model [] body
  = Ok match classify model with
       | Amazon =>
           json_dumps
             (VDict [("inputText", VStr "");
                     ("textGenerationConfig",
                      VDict [("maxTokenCount", max_tokens);
                             ("stopSequences", VList []);
                             ("temperature", temperature)])])
       | Anthropic =>
           json_dumps
             (VDict [("anthropic_version", VStr "bedrock-2023-05-31");
                     ("max_tokens", max_tokens);
                     ("messages", VList []);
                     ("temperature", temperature)])
       | AI21 =>
           json_dumps
             (VDict [("prompt", VStr ""); ("temperature", temperature);
                     ("maxTokens", max_tokens)])
       | Cohere =>
           json_dumps
             (VDict [("prompt", VStr ""); ("temperature", temperature);
                     ("max_tokens", max_tokens)])
       | Meta =>
           json_dumps
             (VDict [("prompt", VStr ""); ("temperature", temperature);
                     ("max_gen_len", max_tokens)])
       | Mistral =>
           json_dumps
             (VDict [("prompt", VStr ""); ("max_tokens", max_tokens);
                     ("temperature", temperature)])
       | Unknown => ""
       end.
Proof.
  intros max_tokens temperature. rewrite format_dispatch.
  destruct (classify model); reflexivity.
Qed.

(** ** The Anthropic formatter and its shared list *)

(** The [anthropic] loop, from any list of turns and any content so far:
    the store ends with every user text in the one list, and every user turn
    refers to it. *)
Lemma anthropic_loop (messages : list message) (turns : list obj)
    (blocks : list val) :
  exists turns',
    fold_left (anthropic_step 0%nat) messages (turns, [blocks])
    = (turns ++ turns', [blocks ++ user_texts messages])
    /\ forall shared,
         map (freeze [shared]) turns' = anthropic_turns shared messages.
Proof.
  revert turns blocks.
  induction messages as [|m messages IH]; intros turns blocks.
  - exists []. cbn. now rewrite !app_nil_r.
  - cbn [fold_left]. unfold user_texts, anthropic_turns.
    cbn [anthropic_step List.filter flat_map].
    destruct (String.eqb (role m) "user").
    + destruct (IH (turns
                      ++ [ODict [("role", OVal (VStr "user"));
                                 ("content", ORef 0%nat)]])
                   (blocks ++ [text_block (content m)]))
        as (turns' & Hloop & Hfreeze).
      eexists (_ :: turns'). split.
      * cbn [append alter list_alter].
        rewrite Hloop.
        now rewrite <- !app_assoc.
      * intros shared. cbn. now rewrite Hfreeze.
    + destruct (String.eqb (role m) "assistant").
      * destruct (IH (turns
                        ++ [ODict [("role", OVal (VStr "assistant"));
                                   ("content", OVal (VStr (content m)))]])
                     blocks)
          as (turns' & Hloop & Hfreeze).
        eexists (_ :: turns'). split.
        -- rewrite Hloop. now rewrite <- !app_assoc.
        -- intros shared. cbn. now rewrite Hfreeze.
      * destruct (IH turns blocks) as (turns' & Hloop & Hfreeze).
        exists turns'. split; [exact Hloop | exact Hfreeze].
Qed.

(** Every user turn of the Anthropic payload carries the same content: the
    image block, when one was downloaded, and then the text blocks of all the
    user turns of the conversation. *)
Lemma format_anthropic_shares_content
    (json_dumps : val -> string) (requests_get : val -> fetched)
    (messages : list message) (body : gmap string val)
    (max_tokens temperature : val) :
  format_anthropic json_dumps requests_get messages body max_tokens temperature
  = images ← image_blocks requests_get messages body;
    Ok (json_dumps
          (VDict [("anthropic_version", VStr "bedrock-2023-05-31");
                  ("max_tokens", max_tokens);
                  ("messages",
                   VList (anthropic_turns (images ++ user_texts messages)
                            messages));
                  ("temperature", temperature)])).
Proof.
  unfold format_anthropic, image_blocks, attach_image. cbn [alloc length app].
  assert (Hrun : forall images,
    (let '(anthropic_messages, h) :=
       fold_left (anthropic_step 0%nat) messages ([], [images]) in
     Ok (json_dumps
           (freeze h
              (ODict [("anthropic_version", OVal (VStr "bedrock-2023-05-31"));
                      ("max_tokens", OVal max_tokens);
                      ("messages", OList anthropic_messages);
                      ("temperature", OVal temperature)]))))
    = Ok (json_dumps
            (VDict [("anthropic_version", VStr "bedrock-2023-05-31");
                    ("max_tokens", max_tokens);
                    ("messages",
                     VList (anthropic_turns (images ++ user_texts messages)
                              messages));
                    ("temperature", temperature)]))).
  { intros images.
    destruct (anthropic_loop messages [] images) as (turns' & Hloop & Hfreeze).
    rewrite Hloop. cbn. now rewrite Hfreeze. }
  destruct (wants_image messages body); [|apply Hrun].
  destruct (body !! "image_url") as [image_url|]; [|reflexivity].
  destruct (requests_get image_url); [apply Hrun | apply Hrun | reflexivity].
Qed.

(** C1, on the code: with two user turns and an image, the formatter gives
    both user turns the same content list, holding the image block and the
    text blocks of both turns, where the claim gives the image to the last
    turn only and to each turn its own text block. *)
Theorem C1_user_turns_share_one_content_list
    (json_dumps : val -> string) (data : bytes) :
  let image := image_block (b64encode data) in
  let shared := VList [image; text_block "hi"; text_block "there"] in
  _format_message json_dumps (serving data) "anthropic.claude-3-sonnet"
    [Message "user" "hi"; Message "assistant" "hello"; Message "user" "there"]
    {[ "image_url" := VStr "https://example.com/cat.jpg" ]}
  = Ok (json_dumps
          (VDict [("anthropic_version", VStr "bedrock-2023-05-31");
                  ("max_tokens", VInt 2048);
                  ("messages",
                   VList [VDict [("role", VStr "user"); ("content", shared)];
                          VDict [("role", VStr "assistant");
                                 ("content", VStr "hello")];
                          VDict [("role", VStr "user"); ("content", shared)]]);
                  ("temperature", VFloat 5 (-1))])).
Proof.
  intros image shared. rewrite format_dispatch.
  change (classify "anthropic.claude-3-sonnet") with Anthropic.
  unfold format_as. rewrite format_anthropic_shares_content.
  reflexivity.
Qed.

(** With a single user turn the list is that turn's own: the image block
    and then its text block; when the download fails with a
    [RequestException], the text block alone. *)
Example anthropic_single_user_turn
    (json_dumps : val -> string) (data : bytes) :
  let body : gmap string val :=
    {[ "image_url" := VStr "https://example.com/cat.jpg" ]} in
  let payload content :=
    json_dumps
      (VDict [("anthropic_version", VStr "bedrock-2023-05-31");
              ("max_tokens", VInt 2048);
              ("messages",
               VList [VDict [("role", VStr "user"); ("content", VList content)]]);
              ("temperature", VFloat 5 (-1))]) in
  _format_message json_dumps (serving data) "anthropic.claude-3-sonnet"
    [Message "user" "hi"] body
  = Ok (payload [image_block (b64encode data); text_block "hi"])
  /\ _format_message json_dumps offline "anthropic.claude-3-sonnet"
       [Message "user" "hi"] body
     = Ok (payload [text_block "hi"]).
Proof. split; reflexivity. Qed.

(** ** Generators *)

Lemma for_yield_all {A : Type} (body : A -> result val) (events : list A)
    (ds : list val) :
  Forall2 (fun event delta => body event = Ok delta) events ds ->
  for_yield body events = (ds, None).
Proof.
  induction 1 as [|event delta events ds Hbody _ IH]; cbn [for_yield].
  - reflexivity.
  - now rewrite Hbody, IH.
Qed.

(** A generator that has run to its end has yielded one value by event. *)
Lemma for_yield_finished {A : Type} (body : A -> result val) (events : list A)
    (ds : list val) :
  for_yield body events = (ds, None) ->
  Forall2 (fun event delta => body event = Ok delta) events ds.
Proof.
  revert ds. induction events as [|event events IH]; intros ds; cbn [for_yield].
  - intros [= <-]. constructor.
  - destruct (body event) as [delta|e] eqn:Hbody; [|discriminate].
    destruct (for_yield body events) as [more e'].
    intros [= <- ->]. constructor; [exact Hbody | now apply IH].
Qed.

(** The event on which the body raises is the last one read. *)
Lemma for_yield_raise {A : Type} (body : A -> result val)
    (pre : list A) (bad : A) (post : list A) (ds : list val) (e : exn) :
  for_yield body pre = (ds, None) ->
  body bad = Raise e ->
  for_yield body (pre ++ bad :: post) = (ds, Some e).
Proof.
  revert ds. induction pre as [|event pre IH]; intros ds; cbn [for_yield app].
  - intros [= <-] Hbad. now rewrite Hbad.
  - destruct (body event) as [delta|e'] eqn:Hbody; [|discriminate].
    destruct (for_yield body pre) as [more e''] eqn:Hpre.
    intros [= <- ->] Hbad. now rewrite (IH more eq_refl Hbad).
Qed.

(** ** The streaming decoder *)

Lemma str_eq_true (s : string) (v : val) : str_eq s v = true <-> v = VStr s.
Proof.
  destruct v; cbn; try (split; [discriminate | intros [=]]).
  rewrite String.eqb_eq. split; [now intros -> | now intros [= ->]].
Qed.

(** C4: in the [mistral] branch an event whose text
    [outputs[0].text] is exactly the line feed yields the empty string, and
    an event with any other text yields that text unchanged; the stream of
    such events yields one delta by event, in order. *)
Theorem C4_mistral_line_feed_becomes_empty
    (json_loads : string -> result val) (json_loads_bytes : bytes -> result val)
    (events : list bytes) (lines : list val) :
  Forall2 (fun bc line => mistral_line json_loads bc = Ok line) events lines ->
  exists ds,
    _stream_response json_loads json_loads_bytes events "mistral" = (ds, None)
    /\ Forall2
         (fun line delta =>
            (line = VStr LF -> delta = VStr "")
            /\ (line <> VStr LF -> delta = line))
         lines ds.
Proof.
  intros Hlines. cbn [_stream_response String.eqb Ascii.eqb Bool.eqb].
  change (if (_ : bool) then for_yield _ events else _)
    with (for_yield (mistral_event json_loads) events).
  induction Hlines as [|bc line events lines Hline _ (ds & Hrun & Hds)].
  - exists []. split; [reflexivity | constructor].
  - exists ((if str_eq LF line then VStr "" else line) :: ds). split.
    + cbn [for_yield]. unfold mistral_event at 1. rewrite Hline. cbn.
      destruct (str_eq LF line); now rewrite Hrun.
    + constructor; [|exact Hds].
      destruct (str_eq LF line) eqn:E.
      * apply str_eq_true in E. split; [reflexivity | intros []; exact E].
      * split; [|reflexivity]. intros ->. discriminate E.
Qed.

(** C4 on three events: a word, the line feed alone, and a line feed
    after a space. *)
Lemma C4_witness :
  exists ds,
    _stream_response Json.loads Json.loads_bytes
      [Json.chunk "{'outputs': [{'text': 'Hello'}]}";
       Json.chunk "{'outputs': [{'text': '\n'}]}";
       Json.chunk "{'outputs': [{'text': ' \n'}]}"]
      "mistral"
    = (ds, None)
    /\ Forall2
         (fun line delta =>
            (line = VStr LF -> delta = VStr "")
            /\ (line <> VStr LF -> delta = line))
         [VStr "Hello"; VStr LF; VStr (" " +:+ LF)] ds.
Proof.
  apply (C4_mistral_line_feed_becomes_empty Json.loads Json.loads_bytes).
  repeat constructor.
Defined.

(** The deltas of the three events of the witness of C4. *)
Example mistral_stream_deltas :
  _stream_response Json.loads Json.loads_bytes
    [Json.chunk "{'outputs': [{'text': 'Hello'}]}";
     Json.chunk "{'outputs': [{'text': '\n'}]}";
     Json.chunk "{'outputs': [{'text': ' \n'}]}"]
    "mistral"
  = ([VStr "Hello"; VStr ""; VStr (" " +:+ LF)], None).
Proof. vm_compute. reflexivity. Qed.

Lemma stream_response_body (json_loads : string -> result val)
    (json_loads_bytes : bytes -> result val) (model_provider : string)
    (events : list bytes) :
  _stream_response json_loads json_loads_bytes events model_provider
  = for_yield (event_body json_loads json_loads_bytes model_provider) events.
Proof.
  unfold _stream_response, event_body.
  repeat (match goal with
          | |- context [String.eqb model_provider ?t] =>
              destruct (String.eqb model_provider t)
          end; [reflexivity|]).
  reflexivity.
Qed.

(** A chunk that does not parse makes the body of its loop raise. *)
Lemma event_body_raise (json_loads : string -> result val)
    (json_loads_bytes : bytes -> result val) (model_provider : string)
    (chunk : bytes) (e : exn) :
  In model_provider streaming_tokens ->
  event_document json_loads json_loads_bytes model_provider chunk = Raise e ->
  event_body json_loads json_loads_bytes model_provider chunk = Raise e.
Proof.
  intros Hin. unfold streaming_tokens in Hin. cbn [In] in Hin.
  destruct Hin as [<-|[<-|[<-|[<-|[]]]]];
    unfold event_document, event_body; cbn;
    unfold anthropic_event, mistral_event, mistral_line, cohere_event,
      meta_event; cbn.
  - now intros ->.
  - destruct (decode_utf8 chunk) as [s|e']; cbn; [now intros ->|easy].
  - now intros ->.
  - destruct (decode_utf8 chunk) as [s|e']; cbn; [now intros ->|easy].
Qed.

(** C2, as the code has it: in the branches of the four provider tokens an
    event whose bytes do not parse as JSON ends the stream at that event with
    the parser's exception; the deltas of the events before it are the whole
    output, and no event after it is read. *)
Theorem C2_malformed_event_ends_the_stream
    (json_loads : string -> result val) (json_loads_bytes : bytes -> result val)
    (model_provider : string) (pre : list bytes) (bad : bytes)
    (post : list bytes) (ds : list val) (e : exn) :
  In model_provider streaming_tokens ->
  _stream_response json_loads json_loads_bytes pre model_provider = (ds, None) ->
  event_document json_loads json_loads_bytes model_provider bad = Raise e ->
  _stream_response json_loads json_loads_bytes (pre ++ bad :: post)
    model_provider
  = (ds, Some e).
Proof.
  intros Hin Hpre Hbad. rewrite stream_response_body in *.
  apply for_yield_raise; [exact Hpre|].
  now apply event_body_raise.
Qed.

(** The amended C2 on three [cohere] events, the second one cut short. *)
Lemma C2_witness :
  _stream_response Json.loads Json.loads_bytes
    ([Json.chunk "{'text': 'a'}"] ++ Json.chunk "{'text': " ::
       [Json.chunk "{'text': 'b'}"])
    "cohere"
  = ([VStr "a"], Some JSONDecodeError).
Proof.
  apply (C2_malformed_event_ends_the_stream Json.loads Json.loads_bytes "cohere").
  - cbn. tauto.
  - vm_compute. reflexivity.
  - vm_compute. reflexivity.
Defined.

(** C2 fails on the code: of three events for [anthropic], the second one
    not JSON, the third one well-formed, only the delta of the first is
    emitted, and the generator ends with the parser's exception. *)
Lemma C2_stream_stops_at_malformed_event :
  let good1 := Json.chunk "{'completion': 'a'}" in
  let bad := Json.chunk "not json" in
  let good2 := Json.chunk "{'completion': 'b'}" in
  Json.loads_bytes bad = Raise JSONDecodeError
  /\ _stream_response Json.loads Json.loads_bytes [good2] "anthropic"
     = ([VStr "b"], None)
  /\ _stream_response Json.loads Json.loads_bytes [good1; bad; good2] "anthropic"
     = ([VStr "a"], Some JSONDecodeError)
  /\ ~ In (VStr "b")
       (deltas (_stream_response Json.loads Json.loads_bytes
                  [good1; bad; good2] "anthropic")).
Proof.
  cbv zeta. repeat split; try (vm_compute; reflexivity).
  vm_compute. intros [H|[]]. discriminate H.
Qed.

(** ** The provider token *)

(** The first segment of an identifier is its beginning. *)
Lemma provider_token_prefix (model_id : string) :
  exists rest, model_id = provider_token model_id +:+ rest.
Proof.
  unfold provider_token. induction model_id as [|c s [rest IH]].
  - exists "". reflexivity.
  - cbn [split]. destruct (Ascii.eqb c ".").
    + exists (String c s). reflexivity.
    + destruct (split "." s) as [|x xs]; cbn [hd] in *.
      * exists s. reflexivity.
      * exists rest. unfold_append. now rewrite <- IH.
Qed.

Lemma provider_token_occurs (model_id : string) :
  occurs (provider_token model_id) model_id.
Proof.
  destruct (provider_token_prefix model_id) as [rest H].
  exists "", rest. exact H.
Qed.

(** A token with a streaming branch is the marker of a family. *)
Lemma streaming_token_marker (t : string) :
  In t streaming_tokens ->
  exists f, marker f = Some t.
Proof.
  unfold streaming_tokens. cbn [In].
  intros [<-|[<-|[<-|[<-|[]]]]];
    [exists Anthropic | exists Mistral | exists Cohere | exists Meta];
    reflexivity.
Qed.

(** A token without a streaming branch runs the default loop. *)
Lemma stream_response_default (json_loads : string -> result val)
    (json_loads_bytes : bytes -> result val) (model_provider : string)
    (events : list bytes) :
  ~ In model_provider streaming_tokens ->
  _stream_response json_loads json_loads_bytes events model_provider
  = for_yield default_event events.
Proof.
  intros Hnot. unfold _stream_response.
  repeat (match goal with
          | |- context [String.eqb model_provider ?t] =>
              destruct (String.eqb_spec model_provider t) as [->|_]
          end; [destruct Hnot; unfold streaming_tokens; cbn; tauto|]).
  reflexivity.
Qed.

(** The default loop emits the text of every chunk that is UTF-8. *)
Lemma default_stream_verbatim (events : list bytes) :
  Forall (fun chunk => utf8_valid (map Byte.to_N chunk) = true) events ->
  for_yield default_event events
  = (map (fun chunk => VStr (string_of_list_byte chunk)) events, None).
Proof.
  intros Hvalid. apply for_yield_all.
  induction Hvalid as [|chunk events Hchunk _ IH]; constructor; [|exact IH].
  unfold default_event, decode_utf8. now rewrite Hchunk.
Qed.

(** C6, as the code has it: for a model identifier that holds no family
    marker the streaming decoder runs its default loop and emits the bytes of
    every event, decoded as UTF-8, as one delta, in order. When every chunk
    is UTF-8 the stream runs to its end with as many deltas as events; at the
    first chunk that is not, it ends with a [UnicodeDecodeError] after the
    deltas of the events before it. *)
Theorem C6_unknown_family_streams_verbatim
    (json_loads : string -> result val) (json_loads_bytes : bytes -> result val)
    (model_id : string) (events : list bytes) :
  (forall f, ~ has_marker f model_id) ->
  (Forall (fun chunk => utf8_valid (map Byte.to_N chunk) = true) events ->
   pipe_stream json_loads json_loads_bytes events model_id
   = (map (fun chunk => VStr (string_of_list_byte chunk)) events, None))
  /\ (forall pre bad post,
         events = pre ++ bad :: post ->
         Forall (fun chunk => utf8_valid (map Byte.to_N chunk) = true) pre ->
         utf8_valid (map Byte.to_N bad) = false ->
         pipe_stream json_loads json_loads_bytes events model_id
         = (map (fun chunk => VStr (string_of_list_byte chunk)) pre,
            Some UnicodeDecodeError)).
Proof.
  intros Hnone.
  assert (Hdefault : pipe_stream json_loads json_loads_bytes events model_id
                     = for_yield default_event events).
  { unfold pipe_stream. apply stream_response_default. intros Hin.
    destruct (streaming_token_marker _ Hin) as [f Hf].
    apply (Hnone f). exists (provider_token model_id).
    split; [exact Hf | apply provider_token_occurs]. }
  rewrite Hdefault. split.
  - apply default_stream_verbatim.
  - intros pre bad post -> Hpre Hbad.
    apply for_yield_raise; [now apply default_stream_verbatim|].
    unfold default_event, decode_utf8. now rewrite Hbad.
Qed.

(** The amended C6 at [gpt-4o]: two events that are UTF-8, and the same two
    with the byte [0xff] between them. *)
Lemma C6_witness :
  pipe_stream Json.loads Json.loads_bytes [Json.chunk "Hel"; Json.chunk "lo"]
    "gpt-4o"
  = (map (fun chunk => VStr (string_of_list_byte chunk))
       [Json.chunk "Hel"; Json.chunk "lo"], None)
  /\ pipe_stream Json.loads Json.loads_bytes
       ([Json.chunk "Hel"] ++ [Byte.xff] :: [Json.chunk "lo"]) "gpt-4o"
     = (map (fun chunk => VStr (string_of_list_byte chunk)) [Json.chunk "Hel"],
        Some UnicodeDecodeError).
Proof.
  assert (Hnone : forall f, ~ has_marker f "gpt-4o")
    by (intros f; destruct f; no_marker).
  split.
  - apply (proj1 (C6_unknown_family_streams_verbatim
                    Json.loads Json.loads_bytes "gpt-4o"
                    [Json.chunk "Hel"; Json.chunk "lo"] Hnone)).
    repeat constructor.
  - apply (proj2 (C6_unknown_family_streams_verbatim
                    Json.loads Json.loads_bytes "gpt-4o"
                    ([Json.chunk "Hel"] ++ [Byte.xff] :: [Json.chunk "lo"])
                    Hnone)
             [Json.chunk "Hel"] [Byte.xff] [Json.chunk "lo"] eq_refl).
    + repeat constructor.
    + reflexivity.
Defined.

(** C6 fails on the code: the identifier [gpt-4o] matches no family, and its
    stream of two events has two deltas. *)
Lemma C6_unknown_family_stream_is_not_empty :
  classify "gpt-4o" = Unknown
  /\ pipe_stream Json.loads Json.loads_bytes [Json.chunk "Hel"; Json.chunk "lo"]
       "gpt-4o"
     = ([VStr "Hel"; VStr "lo"], None).
Proof. split; vm_compute; reflexivity. Qed.

(** C10, amended: when a model identifier holds exactly one family marker and
    that marker is not its first dot-separated segment, the streaming decoder
    runs its default loop, while the whole-response decoder reads the
    document by that family's branch. *)
Theorem C10_marker_off_first_segment_streams_by_default
    (json_loads : string -> result val) (json_loads_bytes : bytes -> result val)
    (f : family) (model_id : string) (events : list bytes) (jsondata : val) :
  has_marker f model_id ->
  (forall f', f' <> f -> ~ has_marker f' model_id) ->
  marker f <> Some (provider_token model_id) ->
  pipe_stream json_loads json_loads_bytes events model_id
  = for_yield default_event events
  /\ _extract_output jsondata model_id = extract_as f jsondata.
Proof.
  intros Hf Hothers Hsegment. split.
  - unfold pipe_stream. apply stream_response_default. intros Hin.
    destruct (streaming_token_marker _ Hin) as [f' Hf'].
    destruct (decide (f' = f)) as [->|Hne]; [now apply Hsegment|].
    apply (Hothers f' Hne). exists (provider_token model_id).
    split; [exact Hf' | apply provider_token_occurs].
  - now rewrite extract_dispatch, (classify_single f model_id Hf Hothers).
Qed.

(** The amended C10 at [us.anthropic.claude-3-haiku], whose first segment
    is [us]. *)
Lemma C10_witness :
  pipe_stream Json.loads Json.loads_bytes
    [Json.chunk "{'completion': 'Hi'}"] "us.anthropic.claude-3-haiku"
  = for_yield default_event [Json.chunk "{'completion': 'Hi'}"]
  /\ _extract_output (VDict [("content", VList [VDict [("text", VStr "Hi")]])])
       "us.anthropic.claude-3-haiku"
     = extract_as Anthropic
         (VDict [("content", VList [VDict [("text", VStr "Hi")]])]).
Proof.
  apply (C10_marker_off_first_segment_streams_by_default
           Json.loads Json.loads_bytes Anthropic "us.anthropic.claude-3-haiku").
  - exists "anthropic". split; [reflexivity|].
    exists "us.", ".claude-3-haiku". reflexivity.
  - intros f' Hne. destruct f'; try no_marker. now destruct Hne.
  - vm_compute. discriminate.
Defined.

(** What the two decoders make of the witness of C10: the streamed delta is
    the raw text of the chunk, the whole-response text is the field. *)
Example cross_region_identifier_decoding :
  pipe_stream Json.loads Json.loads_bytes
    [Json.chunk "{'completion': 'Hi'}"] "us.anthropic.claude-3-haiku"
  = ([VStr (Json.quoted "{'completion': 'Hi'}")], None)
  /\ _extract_output (VDict [("content", VList [VDict [("text", VStr "Hi")]])])
       "us.anthropic.claude-3-haiku"
     = Ok (VStr "Hi").
Proof. split; vm_compute; reflexivity. Qed.

(** C10 fails on the code as it is stated: [meta.amazon-titan] is decoded as
    Amazon by the whole-response decoder, its marker [amazon] is not the first
    segment, and the streaming decoder runs the [meta] loop on it, whose
    output differs from that of the default loop. *)
Lemma C10_first_segment_of_another_family :
  let model_id := "meta.amazon-titan" in
  let events := [Json.chunk "{'generation': 'x'}"] in
  classify model_id = Amazon
  /\ has_marker Amazon model_id
  /\ marker Amazon <> Some (provider_token model_id)
  /\ pipe_stream Json.loads Json.loads_bytes events model_id
     = ([VStr "x"], None)
  /\ for_yield default_event events
     = ([VStr (Json.quoted "{'generation': 'x'}")], None)
  /\ pipe_stream Json.loads Json.loads_bytes events model_id
     <> for_yield default_event events.
Proof.
  cbv zeta. split; [reflexivity|]. split.
  { exists "amazon". split; [reflexivity|]. exists "meta.", "-titan". reflexivity. }
  split; [vm_compute; discriminate|].
  split; [vm_compute; reflexivity|].
  split; [vm_compute; reflexivity|].
  vm_compute. discriminate.
Qed.

(** ** The whole-response decoder *)

Lemma raises_Raise {A : Type} (e : exn) : raises (@Raise A e).
Proof. now exists e. Qed.

#[local] Hint Resolve raises_Raise : core.

Lemma field_cons (a : step) (p : list step) (doc : val) :
  field (a :: p) doc = field [a] doc ≫= field p.
Proof.
  destruct a; destruct doc; cbn [field]; try reflexivity.
  - destruct (dict_lookup kvs k); reflexivity.
  - destruct (xs !! i); reflexivity.
Qed.

(** A subscript by a key returns the field, and raises when it is missing. *)
Lemma getitem_key_field (v : val) (k : string) :
  match field [Key k] v with
  | Some x => getitem_key v k = Ok x
  | None => raises (getitem_key v k)
  end.
Proof.
  destruct v; cbn; auto. destruct (dict_lookup kvs k); cbn; auto.
Qed.

(** A subscript by a place returns the field; when the field is missing it
    raises, or it answers a character of a string, which has no field. *)
Lemma getitem_idx_field (v : val) (i : nat) :
  match field [Idx i] v with
  | Some x => getitem_idx v i = Ok x
  | None => raises (getitem_idx v i) \/ exists c, getitem_idx v i = Ok (VStr c)
  end.
Proof.
  destruct v; cbn; auto.
  - destruct (str_chars s !! i); eauto.
  - destruct (xs !! i); cbn; auto.
Qed.

(** The walk [doc[a][0][b]] of the branches that use subscripts. *)
Lemma subscripts_field (a b : string) (jsondata : val) :
  match field [Key a; Idx 0%nat; Key b] jsondata with
  | Some v =>
      (r ← getitem_key jsondata a; r ← getitem_idx r 0; getitem_key r b) = Ok v
  | None =>
      raises (r ← getitem_key jsondata a; r ← getitem_idx r 0; getitem_key r b)
  end.
Proof.
  rewrite field_cons.
  pose proof (getitem_key_field jsondata a) as Ha.
  destruct (field [Key a] jsondata) as [r|]; cbn [mbind option_bind];
    [rewrite Ha | destruct Ha as [e ->]; cbn; auto].
  cbn [mbind result_bind]. rewrite field_cons.
  pose proof (getitem_idx_field r 0) as Hi.
  destruct (field [Idx 0%nat] r) as [r'|]; cbn [mbind option_bind].
  - rewrite Hi. cbn [mbind result_bind]. apply getitem_key_field.
  - destruct Hi as [[e ->]|[c ->]]; cbn; auto.
Qed.

(** Every branch returns the field at its family's path when the document
    has it. *)
Lemma extract_field_present (f : family) (jsondata v : val) :
  f <> Unknown ->
  field (path f) jsondata = Some v ->
  extract_as f jsondata = Ok v.
Proof.
  intros Hknown Hfield.
  destruct f; unfold extract_as; cbn [path] in Hfield;
    try (match goal with
         | H : field [Key ?a; Idx _; Key ?b] _ = _ |- _ =>
             pose proof (subscripts_field a b jsondata) as Hwalk;
             rewrite H in Hwalk; exact Hwalk
         end).
  - (* ai21 *)
    destruct jsondata; try discriminate Hfield. cbn in Hfield |- *.
    destruct (dict_lookup kvs "completions") as [r|]; [|discriminate Hfield].
    cbn in Hfield |- *. destruct r; try discriminate Hfield. cbn in Hfield |- *.
    destruct (xs !! 0%nat) as [r|]; [|discriminate Hfield].
    cbn in Hfield |- *. destruct r; try discriminate Hfield. cbn in Hfield |- *.
    destruct (dict_lookup kvs0 "data") as [r|]; [|discriminate Hfield].
    cbn in Hfield |- *. destruct r; try discriminate Hfield. cbn in Hfield |- *.
    destruct (dict_lookup kvs1 "text") as [r|]; [|discriminate Hfield].
    cbn in Hfield |- *. congruence.
  - (* meta *)
    pose proof (getitem_key_field jsondata "generation") as Hwalk.
    now rewrite Hfield in Hwalk.
  - now destruct Hknown.
Qed.

(** The branches that walk the document with subscripts raise when the
    field at the path is missing. *)
Lemma extract_field_missing (f : family) (jsondata : val) :
  f <> Unknown -> f <> AI21 ->
  field (path f) jsondata = None ->
  raises (extract_as f jsondata).
Proof.
  intros Hknown Hsub Hfield.
  destruct f; unfold extract_as; cbn [path] in Hfield;
    try (match goal with
         | H : field [Key ?a; Idx _; Key ?b] _ = _ |- _ =>
             pose proof (subscripts_field a b jsondata) as Hwalk;
             rewrite H in Hwalk; exact Hwalk
         end).
  - now destruct Hsub.
  - pose proof (getitem_key_field jsondata "generation") as Hwalk.
    now rewrite Hfield in Hwalk.
  - now destruct Hknown.
Qed.

(** The [ai21] branch returns [None] when the document has
    [completions[0].data] as an object without [text]. *)
Lemma extract_ai21_text_missing (jsondata : val) (data : list (string * val)) :
  field [Key "completions"; Idx 0%nat; Key "data"] jsondata = Some (VDict data) ->
  dict_lookup data "text" = None ->
  extract_as AI21 jsondata = Ok VNone.
Proof.
  intros Hfield Htext. unfold extract_as.
  destruct jsondata; try discriminate Hfield. cbn in Hfield |- *.
  destruct (dict_lookup kvs "completions") as [r|]; [|discriminate Hfield].
  cbn in Hfield |- *. destruct r; try discriminate Hfield. cbn in Hfield |- *.
  destruct (xs !! 0%nat) as [r|]; [|discriminate Hfield].
  cbn in Hfield |- *. destruct r; try discriminate Hfield. cbn in Hfield |- *.
  destruct (dict_lookup kvs0 "data") as [r|]; [|discriminate Hfield].
  cbn in Hfield |- *. injection Hfield as ->. cbn. now rewrite Htext.
Qed.

(** The two documents of the specification's example for Anthropic. *)
Example anthropic_extract_examples :
  _extract_output (VDict [("content", VList [VDict [("text", VStr "ok")]])])
    "anthropic.claude-v2"
  = Ok (VStr "ok")
  /\ _extract_output (VDict [("content", VList [])]) "anthropic.claude-v2"
     = Raise IndexError.
Proof. split; reflexivity. Qed.

(** C5, on the code: the [ai21] branch reads the document with [.get], so
    a document whose [completions[0].data] has no [text] is decoded to [None]
    where the claim has a decode error. *)
Theorem C5_ai21_missing_text_is_returned_as_none :
  let jsondata := VDict [("completions", VList [VDict [("data", VDict [])]])] in
  field (path AI21) jsondata = None
  /\ _extract_output jsondata "ai21.j2-ultra-v1" = Ok VNone.
Proof. split; reflexivity. Qed.

(** * Further properties of the formatter *)

Lemma concat_app (xs ys : list string) :
  String.concat "" (xs ++ ys) = String.concat "" xs +:+ String.concat "" ys.
Proof.
  induction xs as [|x xs IH].
  - reflexivity.
  - rewrite <- app_comm_cons, !concat_cons, IH. now rewrite append_assoc.
Qed.

(** The [ai21], [cohere] and [meta] loop, from any prompt so far. *)
Lemma transcript_loop (messages : list message) (prompt : string) :
  fold_left
    (fun prompt m => prompt +:+ (role m +:+ ": " +:+ content m +:+ LF))
    messages prompt
  = prompt +:+ String.concat "" (map transcript_line messages).
Proof.
  revert prompt. induction messages as [|m messages IH]; intros prompt.
  - cbn. now rewrite append_empty_r.
  - cbn [fold_left map]. rewrite IH, concat_cons, append_assoc. reflexivity.
Qed.

(** The [mistral] loop, from any prompt so far. *)
Lemma mistral_loop (messages : list message) (prompt : string) :
  fold_left
    (fun prompt m =>
       if String.eqb (role m) "user"
       then prompt +:+ ("[INST] " +:+ content m +:+ " [/INST]")
       else if String.eqb (role m) "assistant" then prompt +:+ content m
       else prompt)
    messages prompt
  = prompt +:+ String.concat "" (map mistral_piece messages).
Proof.
  revert prompt. induction messages as [|m messages IH]; intros prompt.
  - cbn. now rewrite append_empty_r.
  - cbn [fold_left map]. rewrite IH, concat_cons. unfold mistral_piece at 2.
    unfold is_user, is_assistant.
    destruct (String.eqb (role m) "user");
      [|destruct (String.eqb (role m) "assistant")];
      now rewrite ?append_assoc, ?append_empty.
Qed.

Lemma amazon_prompt_closed (messages : list message) :
  amazon_prompt messages
  = String.concat ""
      (map (fun m => content m +:+ " ") (List.filter is_user messages)).
Proof. unfold amazon_prompt. now rewrite amazon_loop, append_empty. Qed.

Lemma transcript_prompt_closed (messages : list message) :
  transcript_prompt messages
  = String.concat "" (map transcript_line messages).
Proof. unfold transcript_prompt. now rewrite transcript_loop, append_empty. Qed.

Lemma mistral_prompt_closed (messages : list message) :
  mistral_prompt messages = String.concat "" (map mistral_piece messages).
Proof. unfold mistral_prompt. now rewrite mistral_loop, append_empty. Qed.

(** X1: for AI21, Cohere and Meta the prompt holds every turn, whatever its
    role, as the line [role: content] ended by a line feed, in order; the
    three payloads differ by the name of the token limit only. *)
Theorem X1_transcript_prompt_keeps_every_turn
    (json_dumps : val -> string) (requests_get : val -> fetched)
    (model : string) (messages : list message) (body : gmap string val) :
  In (classify model) [AI21; Cohere; Meta] ->
  _format_message json_dumps requests_get model messages body
  = Ok (json_dumps
          (VDict [("prompt",
                   VStr (String.concat "" (map transcript_line messages)));
                  ("temperature",
                   default (VFloat 5 (-1)) (body !! "temperature"));
                  (match classify model with
                   | AI21 => "maxTokens"
                   | Cohere => "max_tokens"
                   | _ => "max_gen_len"
                   end,
                   default (VInt 2048) (body !! "max_tokens"))])).
Proof.
  intros Hin. rewrite format_dispatch. cbn [In] in Hin.
  destruct Hin as [<-|[<-|[<-|[]]]];
    unfold format_as, ai21_body, cohere_body, meta_body;
    now rewrite transcript_prompt_closed.
Qed.

(** X1 at a Cohere identifier with a system turn. *)
Lemma X1_witness :
  _format_message Json.dumps offline "cohere.command-text-v14"
    [Message "system" "be brief"; Message "user" "hi"] ∅
  = Ok (Json.dumps
          (VDict [("prompt",
                   VStr (String.concat ""
                           (map transcript_line
                              [Message "system" "be brief"; Message "user" "hi"])));
                  ("temperature", VFloat 5 (-1));
                  ("max_tokens", VInt 2048)])).
Proof.
  apply (X1_transcript_prompt_keeps_every_turn Json.dumps offline
           "cohere.command-text-v14").
  vm_compute. tauto.
Defined.

(** X2: for Mistral the prompt wraps every user turn in [[INST] ... [/INST]],
    takes every assistant turn as it is, and leaves out the turns of any other
    role, in order and with nothing between the pieces. *)
Theorem X2_mistral_prompt_wraps_user_turns
    (json_dumps : val -> string) (requests_get : val -> fetched)
    (model : string) (messages : list message) (body : gmap string val) :
  classify model = Mistral ->
  _format_message json_dumps requests_get model messages body
  = Ok (json_dumps
          (VDict [("prompt",
                   VStr (String.concat "" (map mistral_piece messages)));
                  ("max_tokens", default (VInt 2048) (body !! "max_tokens"));
                  ("temperature",
                   default (VFloat 5 (-1)) (body !! "temperature"))])).
Proof.
  intros Hc. rewrite format_dispatch, Hc. unfold format_as, mistral_body.
  now rewrite mistral_prompt_closed.
Qed.

(** X2 at the single user turn "hi": the prompt is [[INST] hi [/INST]]. *)
Lemma X2_witness :
  _format_message Json.dumps offline "mistral.mistral-7b-instruct-v0:2"
    [Message "user" "hi"] ∅
  = Ok (Json.dumps
          (VDict [("prompt",
                   VStr (String.concat ""
                           (map mistral_piece [Message "user" "hi"])));
                  ("max_tokens", VInt 2048);
                  ("temperature", VFloat 5 (-1))]))
  /\ String.concat "" (map mistral_piece [Message "user" "hi"])
     = "[INST] hi [/INST]".
Proof.
  split; [|reflexivity].
  rewrite (X2_mistral_prompt_wraps_user_turns Json.dumps offline
             "mistral.mistral-7b-instruct-v0:2" [Message "user" "hi"] ∅ eq_refl).
  vm_compute. reflexivity.
Defined.

(** X3: every prompt is built turn by turn: the prompt of two conversations
    put end to end is the two prompts put end to end. *)
Theorem X3_prompts_of_appended_conversations
    (earlier later : list message) :
  amazon_prompt (earlier ++ later)
  = amazon_prompt earlier +:+ amazon_prompt later
  /\ transcript_prompt (earlier ++ later)
     = transcript_prompt earlier +:+ transcript_prompt later
  /\ mistral_prompt (earlier ++ later)
     = mistral_prompt earlier +:+ mistral_prompt later.
Proof.
  rewrite !amazon_prompt_closed, !transcript_prompt_closed,
    !mistral_prompt_closed.
  rewrite List.filter_app, !map_app, !concat_app. auto.
Qed.

Lemma filter_filter_same {A : Type} (f : A -> bool) (l : list A) :
  List.filter f (List.filter f l) = List.filter f l.
Proof.
  induction l as [|x l IH]; [reflexivity|].
  cbn [List.filter]. destruct (f x) eqn:E; [|exact IH].
  cbn [List.filter]. now rewrite E, IH.
Qed.

Lemma mistral_pieces_of_kept_turns (messages : list message) :
  String.concat ""
    (map mistral_piece
       (List.filter (fun m => is_user m || is_assistant m) messages))
  = String.concat "" (map mistral_piece messages).
Proof.
  induction messages as [|m messages IH]; [reflexivity|].
  cbn [List.filter map]. rewrite concat_cons.
  destruct (is_user m || is_assistant m) eqn:E.
  - cbn [map]. now rewrite concat_cons, IH.
  - apply orb_false_elim in E as [Eu Ea]. unfold mistral_piece at 2.
    now rewrite Eu, Ea, append_empty.
Qed.

(** X4: the turns a family leaves out do not change its payload: Amazon
    formats a conversation as it formats its user turns alone, Mistral as it
    formats its user and assistant turns alone. *)
Theorem X4_left_out_turns_do_not_matter
    (json_dumps : val -> string) (requests_get : val -> fetched)
    (model : string) (messages : list message) (body : gmap string val) :
  (classify model = Amazon ->
   _format_message json_dumps requests_get model messages body
   = _format_message json_dumps requests_get model
       (List.filter is_user messages) body)
  /\ (classify model = Mistral ->
      _format_message json_dumps requests_get model messages body
      = _format_message json_dumps requests_get model
          (List.filter (fun m => is_user m || is_assistant m) messages) body).
Proof.
  rewrite !format_dispatch. split; intros ->; unfold format_as.
  - unfold amazon_body. rewrite !amazon_prompt_closed.
    now rewrite filter_filter_same.
  - unfold mistral_body. rewrite !mistral_prompt_closed.
    now rewrite mistral_pieces_of_kept_turns.
Qed.

(** X4 at a conversation with a system turn, for both families. *)
Lemma X4_witness :
  let turns :=
    [Message "system" "be brief"; Message "user" "hi";
     Message "assistant" "hello"] in
  _format_message Json.dumps offline "amazon.titan-text-lite-v1" turns ∅
  = _format_message Json.dumps offline "amazon.titan-text-lite-v1"
      (List.filter is_user turns) ∅
  /\ _format_message Json.dumps offline "mistral.mixtral-8x7b" turns ∅
     = _format_message Json.dumps offline "mistral.mixtral-8x7b"
         (List.filter (fun m => is_user m || is_assistant m) turns) ∅.
Proof.
  split.
  - apply (proj1 (X4_left_out_turns_do_not_matter Json.dumps offline
                    "amazon.titan-text-lite-v1" _ ∅)). reflexivity.
  - apply (proj2 (X4_left_out_turns_do_not_matter Json.dumps offline
                    "mistral.mixtral-8x7b" _ ∅)). reflexivity.
Defined.

(** ** What the formatter reads of the body, and the image download *)

(** The formatter reads the body at three keys only. *)
Lemma format_message_body_frame
    (json_dumps : val -> string) (requests_get : val -> fetched)
    (model : string) (messages : list message) (body body' : gmap string val) :
  body !! "max_tokens" = body' !! "max_tokens" ->
  body !! "temperature" = body' !! "temperature" ->
  body !! "image_url" = body' !! "image_url" ->
  _format_message json_dumps requests_get model messages body
  = _format_message json_dumps requests_get model messages body'.
Proof.
  intros Htokens Htemperature Himage.
  unfold _format_message, format_anthropic, attach_image, wants_image.
  now rewrite Htokens, Htemperature, Himage.
Qed.

(** X5: the payload depends on the body through the keys [max_tokens],
    [temperature] and [image_url] only: two bodies that agree on these three
    give the same payload, whatever else they hold. *)
Theorem X5_payload_depends_on_three_keys_of_body
    (json_dumps : val -> string) (requests_get : val -> fetched)
    (model : string) (messages : list message) (body body' : gmap string val) :
  body !! "max_tokens" = body' !! "max_tokens" ->
  body !! "temperature" = body' !! "temperature" ->
  body !! "image_url" = body' !! "image_url" ->
  _format_message json_dumps requests_get model messages body
  = _format_message json_dumps requests_get model messages body'.
Proof. apply format_message_body_frame. Qed.

(** X5 at two bodies that differ by [stream] and [top_p]. *)
Lemma X5_witness :
  _format_message Json.dumps offline "meta.llama3-8b-instruct-v1:0"
    [Message "user" "hi"] {[ "max_tokens" := VInt 64 ]}
  = _format_message Json.dumps offline "meta.llama3-8b-instruct-v1:0"
      [Message "user" "hi"]
      (<[ "stream" := VBool true ]>
         (<[ "top_p" := VFloat 9 (-1) ]> {[ "max_tokens" := VInt 64 ]})).
Proof.
  apply (X5_payload_depends_on_three_keys_of_body Json.dumps offline
           "meta.llama3-8b-instruct-v1:0" [Message "user" "hi"]);
    vm_compute; reflexivity.
Defined.

(** An image is wanted only when the body holds a URL. *)
Lemma wants_image_url (messages : list message) (body : gmap string val) :
  wants_image messages body = true ->
  exists image_url, body !! "image_url" = Some image_url.
Proof.
  unfold wants_image. destruct (last messages) as [m|]; [|discriminate].
  destruct (body !! "image_url") as [image_url|]; [eauto|].
  cbn. now rewrite andb_false_r.
Qed.

(** The Anthropic branch in terms of the blocks the download leaves. *)
Lemma format_as_anthropic
    (json_dumps : val -> string) (requests_get : val -> fetched)
    (messages : list message) (body : gmap string val) :
  format_as json_dumps requests_get Anthropic messages body
  = images ← image_blocks requests_get messages body;
    Ok (json_dumps
          (VDict [("anthropic_version", VStr "bedrock-2023-05-31");
                  ("max_tokens", default (VInt 2048) (body !! "max_tokens"));
                  ("messages",
                   VList (anthropic_turns (images ++ user_texts messages)
                            messages));
                  ("temperature",
                   default (VFloat 5 (-1)) (body !! "temperature"))])).
Proof. unfold format_as. apply format_anthropic_shares_content. Qed.

(** X6: an image download that fails with a [RequestException] does not
    fail the formatting: the payload is the one of the same request without
    its [image_url]. *)
Theorem X6_failed_download_gives_the_text_only_payload
    (json_dumps : val -> string) (requests_get : val -> fetched)
    (model : string) (messages : list message) (body : gmap string val)
    (image_url : val) :
  body !! "image_url" = Some image_url ->
  requests_get image_url = RequestException ->
  _format_message json_dumps requests_get model messages body
  = _format_message json_dumps requests_get model messages
      (delete "image_url" body).
Proof.
  intros Hurl Hfail.
  assert (Htokens : delete "image_url" body !! "max_tokens"
                    = body !! "max_tokens")
    by (apply lookup_delete_ne; discriminate).
  assert (Htemperature : delete "image_url" body !! "temperature"
                         = body !! "temperature")
    by (apply lookup_delete_ne; discriminate).
  rewrite !format_dispatch.
  destruct (classify model); unfold format_as;
    rewrite ?Htokens, ?Htemperature; try reflexivity.
  rewrite !format_anthropic_shares_content.
  unfold image_blocks, wants_image.
  rewrite lookup_delete_eq, Hurl, Hfail.
  destruct (last messages) as [m|]; [|reflexivity].
  change (default VNone (Some image_url)) with image_url.
  change (truthy (default VNone None)) with false.
  rewrite andb_false_r.
  now destruct (String.eqb (role m) "user" && truthy image_url).
Qed.

(** X6 at a request with an image, off line. *)
Lemma X6_witness :
  _format_message Json.dumps offline "anthropic.claude-3-haiku"
    [Message "user" "what is this?"]
    {[ "image_url" := VStr "https://example.com/cat.jpg" ]}
  = _format_message Json.dumps offline "anthropic.claude-3-haiku"
      [Message "user" "what is this?"]
      (delete "image_url"
         ({[ "image_url" := VStr "https://example.com/cat.jpg" ]}
            : gmap string val)).
Proof.
  apply (X6_failed_download_gives_the_text_only_payload Json.dumps offline
           "anthropic.claude-3-haiku" [Message "user" "what is this?"] _
           (VStr "https://example.com/cat.jpg"));
    reflexivity.
Defined.

(** X7: only a [RequestException] is caught around the download: when an
    image is wanted for a model of the Anthropic family and the download
    raises anything else, that exception leaves the formatter and no payload
    is made, whatever the turns before the last one are. *)
Theorem X7_other_download_exceptions_leave_the_formatter
    (json_dumps : val -> string) (requests_get : val -> fetched)
    (model : string) (messages : list message) (body : gmap string val)
    (image_url : val) (e : exn) :
  classify model = Anthropic ->
  wants_image messages body = true ->
  body !! "image_url" = Some image_url ->
  requests_get image_url = FetchRaised e ->
  _format_message json_dumps requests_get model messages body = Raise e.
Proof.
  intros Hc Hw Hurl Hget.
  rewrite format_dispatch, Hc, format_as_anthropic. unfold image_blocks.
  now rewrite Hw, Hurl, Hget.
Qed.

(** X7 at a request with an image whose download raises a [TypeError]. *)
Lemma X7_witness :
  _format_message Json.dumps (failing TypeError) "anthropic.claude-3-haiku"
    [Message "assistant" "hello"; Message "user" "what is this?"]
    {[ "image_url" := VStr "https://example.com/cat.jpg" ]}
  = Raise TypeError.
Proof.
  apply (X7_other_download_exceptions_leave_the_formatter
           Json.dumps (failing TypeError) "anthropic.claude-3-haiku" _ _
           (VStr "https://example.com/cat.jpg"));
    reflexivity.
Defined.

(** X8: the download is attempted for the Anthropic family only, and only
    when the last turn is a user turn and the body holds a true [image_url]:
    in every other case the payload is the same whatever the network does. *)
Theorem X8_no_download_unless_wanted
    (json_dumps : val -> string) (requests_get requests_get' : val -> fetched)
    (model : string) (messages : list message) (body : gmap string val) :
  classify model <> Anthropic \/ wants_image messages body = false ->
  _format_message json_dumps requests_get model messages body
  = _format_message json_dumps requests_get' model messages body.
Proof.
  intros Hno. rewrite !format_dispatch.
  destruct (classify model) eqn:Hc; try reflexivity.
  destruct Hno as [Hne|Hw]; [now destruct Hne|].
  rewrite !format_as_anthropic. unfold image_blocks. now rewrite Hw.
Qed.

(** X8 at a conversation that ends with an assistant turn: the image is not
    fetched, on line or off line. *)
Lemma X8_witness :
  _format_message Json.dumps (serving []) "anthropic.claude-v2"
    [Message "user" "hi"; Message "assistant" "hello"]
    {[ "image_url" := VStr "https://example.com/cat.jpg" ]}
  = _format_message Json.dumps offline "anthropic.claude-v2"
      [Message "user" "hi"; Message "assistant" "hello"]
      {[ "image_url" := VStr "https://example.com/cat.jpg" ]}.
Proof.
  apply (X8_no_download_unless_wanted Json.dumps (serving []) offline
           "anthropic.claude-v2").
  right. reflexivity.
Defined.

(** ** The turns of the Anthropic payload *)

(** The turns of the payload, against the turns of the conversation that are
    of the user or of the assistant. *)
Lemma anthropic_turns_kept (shared : list val) (messages : list message) :
  Forall2
    (fun turn m =>
       field [Key "role"] turn = Some (VStr (role m))
       /\ (is_user m = false ->
           field [Key "content"] turn = Some (VStr (content m))))
    (anthropic_turns shared messages)
    (List.filter (fun m => is_user m || is_assistant m) messages).
Proof.
  induction messages as [|m messages IH]; [constructor|].
  unfold anthropic_turns. cbn [flat_map List.filter].
  change (String.eqb (role m) "user") with (is_user m).
  change (String.eqb (role m) "assistant") with (is_assistant m).
  fold (anthropic_turns shared messages).
  destruct (is_user m) eqn:Eu.
  - cbn [orb app]. constructor; [|exact IH]. cbn beta. split.
    + apply String.eqb_eq in Eu. cbn. now rewrite Eu.
    + intros Hnot. congruence.
  - destruct (is_assistant m) eqn:Ea; cbn [orb app]; [|exact IH].
    constructor; [|exact IH]. cbn beta. split; [|reflexivity].
    apply String.eqb_eq in Ea. cbn. now rewrite Ea.
Qed.

(** X9: the Anthropic payload has one turn for every user and assistant
    turn of the conversation, in the order of the conversation and with the
    same role; the turns of any other role are left out, and an assistant
    turn carries its content as a plain string. *)
Theorem X9_anthropic_turns_follow_the_conversation
    (json_dumps : val -> string) (requests_get : val -> fetched)
    (model : string) (messages : list message) (body : gmap string val)
    (payload : string) :
  classify model = Anthropic ->
  _format_message json_dumps requests_get model messages body = Ok payload ->
  exists turns,
    payload
    = json_dumps
        (VDict [("anthropic_version", VStr "bedrock-2023-05-31");
                ("max_tokens", default (VInt 2048) (body !! "max_tokens"));
                ("messages", VList turns);
                ("temperature",
                 default (VFloat 5 (-1)) (body !! "temperature"))])
    /\ Forall2
         (fun turn m =>
            field [Key "role"] turn = Some (VStr (role m))
            /\ (is_user m = false ->
                field [Key "content"] turn = Some (VStr (content m))))
         turns
         (List.filter (fun m => is_user m || is_assistant m) messages).
Proof.
  intros Hc. rewrite format_dispatch, Hc, format_as_anthropic.
  destruct (image_blocks requests_get messages body) as [images|e]; cbn;
    [|discriminate].
  intros [= <-]. eexists. split; [reflexivity|]. apply anthropic_turns_kept.
Qed.

(** X9 at a conversation with a system turn, a user turn and an assistant
    turn. *)
Lemma X9_witness :
  exists turns,
    Json.dumps
      (VDict [("anthropic_version", VStr "bedrock-2023-05-31");
              ("max_tokens", VInt 2048);
              ("messages",
               VList [VDict [("role", VStr "user");
                             ("content", VList [text_block "hi"])];
                      VDict [("role", VStr "assistant");
                             ("content", VStr "hello")]]);
              ("temperature", VFloat 5 (-1))])
    = Json.dumps
        (VDict [("anthropic_version", VStr "bedrock-2023-05-31");
                ("max_tokens",
                 default (VInt 2048) ((∅ : gmap string val) !! "max_tokens"));
                ("messages", VList turns);
                ("temperature",
                 default (VFloat 5 (-1))
                   ((∅ : gmap string val) !! "temperature"))])
    /\ Forall2
         (fun turn m =>
            field [Key "role"] turn = Some (VStr (role m))
            /\ (is_user m = false ->
                field [Key "content"] turn = Some (VStr (content m))))
         turns
         (List.filter (fun m => is_user m || is_assistant m)
            [Message "system" "be brief"; Message "user" "hi";
             Message "assistant" "hello"]).
Proof.
  refine (X9_anthropic_turns_follow_the_conversation Json.dumps offline
            "anthropic.claude-v2"
            [Message "system" "be brief"; Message "user" "hi";
             Message "assistant" "hello"] ∅ _ eq_refl _).
  vm_compute. reflexivity.
Defined.

(** ** The whole-response decoder, field by field *)

(** X10: for Amazon, Anthropic, Cohere, Meta and Mistral the decoder
    returns a value exactly when the document has a field at the family's
    path, and the value is that field, of whatever JSON type; it raises
    exactly when the field is missing. *)
Theorem X10_subscript_branches_return_exactly_the_field
    (jsondata : val) (model : string) :
  In (classify model) [Amazon; Anthropic; Cohere; Meta; Mistral] ->
  (forall v,
      _extract_output jsondata model = Ok v
      <-> field (path (classify model)) jsondata = Some v)
  /\ (raises (_extract_output jsondata model)
      <-> field (path (classify model)) jsondata = None).
Proof.
  intros Hin. rewrite extract_dispatch.
  assert (Hknown : classify model <> Unknown /\ classify model <> AI21).
  { cbn [In] in Hin.
    destruct Hin as [<-|[<-|[<-|[<-|[<-|[]]]]]]; split; discriminate. }
  destruct Hknown as [Hknown Hsub].
  pose proof (extract_field_present (classify model) jsondata) as Hpresent.
  pose proof (extract_field_missing (classify model) jsondata Hknown Hsub)
    as Hmissing.
  destruct (field (path (classify model)) jsondata) as [v'|].
  - rewrite (Hpresent v' Hknown eq_refl). split.
    + intros v. split; congruence.
    + split; [intros [e [=]] | discriminate].
  - destruct (Hmissing eq_refl) as [e ->]. split.
    + intros v. split; discriminate.
    + split; [easy | intros _; now exists e].
Qed.

(** X10 at the two Anthropic documents of the specification. *)
Lemma X10_witness :
  (forall v,
      _extract_output (VDict [("content", VList [VDict [("text", VStr "ok")]])])
        "anthropic.claude-v2" = Ok v
      <-> field (path (classify "anthropic.claude-v2"))
            (VDict [("content", VList [VDict [("text", VStr "ok")]])])
          = Some v)
  /\ (raises
        (_extract_output
           (VDict [("content", VList [VDict [("text", VStr "ok")]])])
           "anthropic.claude-v2")
      <-> field (path (classify "anthropic.claude-v2"))
            (VDict [("content", VList [VDict [("text", VStr "ok")]])])
          = None).
Proof.
  apply (X10_subscript_branches_return_exactly_the_field
           (VDict [("content", VList [VDict [("text", VStr "ok")]])])
           "anthropic.claude-v2").
  vm_compute. tauto.
Defined.

(** Closes a case in which the [ai21] walk raises and the document has no
    field on the way. *)
Ltac ai21_raises :=
  solve [split; [discriminate | intros [[=]|(_ & ? & [=] & _)]]].

(** X11: the AI21 branch returns a value in two cases only: the document
    has a field at [completions[0].data.text], which is returned, or it has
    an object at [completions[0].data] without a [text], and [None] is
    returned; on every other document it raises. *)
Theorem X11_ai21_branch_returns_the_field_or_none
    (jsondata : val) (model : string) (v : val) :
  classify model = AI21 ->
  _extract_output jsondata model = Ok v
  <-> field (path AI21) jsondata = Some v
      \/ (v = VNone
          /\ exists data,
               field [Key "completions"; Idx 0%nat; Key "data"] jsondata
               = Some (VDict data)
               /\ dict_lookup data "text" = None).
Proof.
  intros Hc. rewrite extract_dispatch, Hc. unfold extract_as.
  cbn [path].
  destruct jsondata as [| | | | |xs|kvs]; cbn; try ai21_raises.
  destruct (dict_lookup kvs "completions") as [completions|]; cbn;
    [|ai21_raises].
  destruct completions as [| | | |s|xs|kvs0]; cbn; try ai21_raises.
  { destruct (str_chars s !! 0%nat); cbn; ai21_raises. }
  destruct (xs !! 0%nat) as [first|]; cbn; [|ai21_raises].
  destruct first as [| | | | |xs0|kvs0]; cbn; try ai21_raises.
  destruct (dict_lookup kvs0 "data") as [data|]; cbn; [|ai21_raises].
  destruct data as [| | | | |xs1|kvs1]; cbn; try ai21_raises.
  destruct (dict_lookup kvs1 "text") as [text|] eqn:Htext; cbn.
  - split.
    + intros [= ->]. now left.
    + intros [[= ->]|(_ & data & [= <-] & Hnone)]; [reflexivity|congruence].
  - split.
    + intros [= <-]. right. eauto.
    + intros [[=]|(-> & _)]. reflexivity.
Qed.

(** X11 at a document without [text]. *)
Lemma X11_witness :
  _extract_output
    (VDict [("completions", VList [VDict [("data", VDict [("id", VInt 7)])]])])
    "ai21.j2-mid-v1"
  = Ok VNone
  <-> field (path AI21)
        (VDict [("completions",
                 VList [VDict [("data", VDict [("id", VInt 7)])]])])
      = Some VNone
      \/ (VNone = VNone
          /\ exists data,
               field [Key "completions"; Idx 0%nat; Key "data"]
                 (VDict [("completions",
                          VList [VDict [("data", VDict [("id", VInt 7)])]])])
               = Some (VDict data)
               /\ dict_lookup data "text" = None).
Proof.
  apply (X11_ai21_branch_returns_the_field_or_none
           (VDict [("completions",
                    VList [VDict [("data", VDict [("id", VInt 7)])]])])
           "ai21.j2-mid-v1" VNone).
  reflexivity.
Defined.

(** * Further properties of the streaming decoder *)

(** A delta of a generator is what its body made of one of the events. *)
Lemma for_yield_delta {A : Type} (body : A -> result val) (events : list A)
    (delta : val) :
  In delta (for_yield body events).1 ->
  exists event, In event events /\ body event = Ok delta.
Proof.
  induction events as [|event events IH]; cbn [for_yield].
  - intros [].
  - destruct (body event) as [d|e] eqn:Hbody; [|intros []].
    destruct (for_yield body events) as [more e']. cbn [fst In] in *.
    intros [<-|Hin].
    + exists event. split; [now left | exact Hbody].
    + destruct (IH Hin) as (event' & Hin' & Hbody').
      exists event'. split; [now right | exact Hbody'].
Qed.

(** A generator over two runs of events put end to end. *)
Lemma for_yield_app {A : Type} (body : A -> result val) (pre post : list A) :
  for_yield body (pre ++ post)
  = let '(ds, e) := for_yield body pre in
    match e with
    | Some _ => (ds, e)
    | None => let '(ds', e') := for_yield body post in (ds ++ ds', e')
    end.
Proof.
  induction pre as [|event pre IH]; cbn [for_yield app].
  - now destruct (for_yield body post).
  - destruct (body event) as [d|e]; [|reflexivity].
    rewrite IH. destruct (for_yield body pre) as [ds [e|]]; [reflexivity|].
    now destruct (for_yield body post).
Qed.

Lemma for_yield_length {A : Type} (body : A -> result val) (events : list A) :
  (length (for_yield body events).1 <= length events)%nat
  /\ ((for_yield body events).2 = None
      <-> length (for_yield body events).1 = length events).
Proof.
  induction events as [|event events [IHle IHiff]]; cbn [for_yield].
  - cbn. split; [lia | tauto].
  - destruct (body event) as [d|e].
    + destruct (for_yield body events) as [more e']. cbn [fst snd length] in *.
      split; [lia|]. rewrite IHiff. split; lia.
    + cbn. split; [lia|]. split; [discriminate | lia].
Qed.

(** X12: the [mistral] branch never emits a delta that is the line feed
    alone, whatever the events and whatever the parser makes of them. *)
Theorem X12_mistral_never_emits_a_lone_line_feed
    (json_loads : string -> result val) (json_loads_bytes : bytes -> result val)
    (events : list bytes) :
  ~ In (VStr LF)
      (deltas (_stream_response json_loads json_loads_bytes events "mistral")).
Proof.
  rewrite stream_response_body. unfold deltas. intros Hin.
  apply for_yield_delta in Hin as (event & _ & Hbody).
  change (event_body json_loads json_loads_bytes "mistral")
    with (mistral_event json_loads) in Hbody.
  unfold mistral_event in Hbody.
  destruct (mistral_line json_loads event) as [line|e]; cbn in Hbody;
    [|discriminate].
  destruct (str_eq LF line) eqn:E; [discriminate|].
  injection Hbody as ->. discriminate E.
Qed.

(** X13: deltas come out event by event: the stream of two runs of events
    put end to end is the stream of the first run, followed by the stream of
    the second when the first ran to its end, and the stream of the first run
    alone when it raised. *)
Theorem X13_stream_of_appended_events
    (json_loads : string -> result val) (json_loads_bytes : bytes -> result val)
    (model_provider : string) (pre post : list bytes) :
  _stream_response json_loads json_loads_bytes (pre ++ post) model_provider
  = let '(ds, e) :=
      _stream_response json_loads json_loads_bytes pre model_provider in
    match e with
    | Some _ => (ds, e)
    | None =>
        let '(ds', e') :=
          _stream_response json_loads json_loads_bytes post model_provider in
        (ds ++ ds', e')
    end.
Proof. rewrite !stream_response_body. apply for_yield_app. Qed.

(** X14: a stream has at most one delta by event, and it has exactly one
    by event when, and only when, the generator ran to its end without
    raising. *)
Theorem X14_one_delta_by_event
    (json_loads : string -> result val) (json_loads_bytes : bytes -> result val)
    (model_provider : string) (events : list bytes) :
  let s := _stream_response json_loads json_loads_bytes events model_provider in
  (length (deltas s) <= length events)%nat
  /\ (s.2 = None <-> length (deltas s) = length events).
Proof.
  cbv zeta. rewrite stream_response_body. unfold deltas.
  apply for_yield_length.
Qed.

(** The loops of [anthropic], [cohere] and [meta] read one field of the
    document of the event. *)
Lemma event_body_document
    (json_loads : string -> result val) (json_loads_bytes : bytes -> result val)
    (model_provider key : string) (chunk : bytes) :
  In (model_provider, key)
    [("anthropic", "completion"); ("cohere", "text"); ("meta", "generation")] ->
  event_body json_loads json_loads_bytes model_provider chunk
  = doc ← event_document json_loads json_loads_bytes model_provider chunk;
    get_method doc key (VStr "").
Proof.
  cbn [In]. intros [[= <- <-]|[[= <- <-]|[[= <- <-]|[]]]];
    unfold event_body, event_document; cbn; try reflexivity.
  unfold meta_event. now destruct (decode_utf8 chunk).
Qed.

(** X15: in the [anthropic], [cohere] and [meta] branches a stream of events
    that are all JSON objects runs to its end and yields, for every event in
    order, the value of the branch's key ([completion], [text],
    [generation]), of whatever JSON type it is, and the empty string when the
    object has no such key. *)
Theorem X15_object_events_yield_their_field
    (json_loads : string -> result val) (json_loads_bytes : bytes -> result val)
    (model_provider key : string) (events : list bytes)
    (docs : list (list (string * val))) :
  In (model_provider, key)
    [("anthropic", "completion"); ("cohere", "text"); ("meta", "generation")] ->
  Forall2
    (fun chunk kvs =>
       event_document json_loads json_loads_bytes model_provider chunk
       = Ok (VDict kvs))
    events docs ->
  _stream_response json_loads json_loads_bytes events model_provider
  = (map (fun kvs => default (VStr "") (dict_lookup kvs key)) docs, None).
Proof.
  intros Hin Hdocs. rewrite stream_response_body. apply for_yield_all.
  induction Hdocs as [|chunk kvs events docs Hdoc _ IH]; cbn [map];
    constructor; [|exact IH].
  rewrite (event_body_document _ _ _ _ _ Hin), Hdoc. reflexivity.
Qed.

(** X15 on three [meta] events: a text, a number, and an object without
    [generation]. *)
Lemma X15_witness :
  _stream_response Json.loads Json.loads_bytes
    [Json.chunk "{'generation': 'Hi'}"; Json.chunk "{'generation': 7}";
     Json.chunk "{'stop_reason': 'length'}"]
    "meta"
  = (map (fun kvs => default (VStr "") (dict_lookup kvs "generation"))
       [[("generation", VStr "Hi")]; [("generation", VInt 7)];
        [("stop_reason", VStr "length")]],
     None).
Proof.
  apply (X15_object_events_yield_their_field Json.loads Json.loads_bytes
           "meta" "generation").
  - cbn. tauto.
  - repeat constructor.
Defined.

(** X16: two edges of the [mistral] branch on a well-formed JSON object: an
    empty [outputs] list ends the stream at that event with an [IndexError],
    and a missing [outputs] yields the empty string. *)
Theorem X16_mistral_outputs_empty_or_missing
    (json_loads : string -> result val) (json_loads_bytes : bytes -> result val)
    (pre : list bytes) (event : bytes) (post : list bytes) (ds : list val)
    (kvs : list (string * val)) :
  _stream_response json_loads json_loads_bytes pre "mistral" = (ds, None) ->
  event_document json_loads json_loads_bytes "mistral" event = Ok (VDict kvs) ->
  (dict_lookup kvs "outputs" = Some (VList []) ->
   _stream_response json_loads json_loads_bytes (pre ++ event :: post) "mistral"
   = (ds, Some IndexError))
  /\ (dict_lookup kvs "outputs" = None ->
      _stream_response json_loads json_loads_bytes (pre ++ [event]) "mistral"
      = (ds ++ [VStr ""], None)).
Proof.
  rewrite !stream_response_body.
  change (event_body json_loads json_loads_bytes "mistral")
    with (mistral_event json_loads).
  unfold event_document. cbn [String.eqb Ascii.eqb Bool.eqb orb].
  intros Hpre Hdoc.
  assert (Hline : mistral_line json_loads event
                  = (outputs ← get_method (VDict kvs) "outputs"
                                  (VList [VDict []]);
                     first ← getitem_idx outputs 0;
                     get_method first "text" (VStr ""))).
  { unfold mistral_line. destruct (decode_utf8 event) as [s|e]; cbn in *;
      [now rewrite Hdoc | discriminate]. }
  split; intros Houtputs.
  - apply for_yield_raise; [exact Hpre|].
    unfold mistral_event. rewrite Hline. cbn. now rewrite Houtputs.
  - rewrite for_yield_app, Hpre. cbn [for_yield].
    unfold mistral_event. rewrite Hline. cbn. now rewrite Houtputs.
Qed.

(** X16 after one event, on an object with an empty [outputs] and on an
    object with a [stop_reason] only. *)
Lemma X16_witness :
  _stream_response Json.loads Json.loads_bytes
    ([Json.chunk "{'outputs': [{'text': 'Hi'}]}"]
       ++ Json.chunk "{'outputs': []}"
       :: [Json.chunk "{'outputs': [{'text': '!'}]}"])
    "mistral"
  = ([VStr "Hi"], Some IndexError)
  /\ _stream_response Json.loads Json.loads_bytes
       ([Json.chunk "{'outputs': [{'text': 'Hi'}]}"]
          ++ [Json.chunk "{'stop_reason': 'stop'}"])
       "mistral"
     = ([VStr "Hi"] ++ [VStr ""], None).
Proof.
  split.
  - apply (proj1 (X16_mistral_outputs_empty_or_missing
                    Json.loads Json.loads_bytes
                    [Json.chunk "{'outputs': [{'text': 'Hi'}]}"]
                    (Json.chunk "{'outputs': []}")
                    [Json.chunk "{'outputs': [{'text': '!'}]}"]
                    [VStr "Hi"] [("outputs", VList [])]
                    eq_refl eq_refl)).
    reflexivity.
  - apply (proj2 (X16_mistral_outputs_empty_or_missing
                    Json.loads Json.loads_bytes
                    [Json.chunk "{'outputs': [{'text': 'Hi'}]}"]
                    (Json.chunk "{'stop_reason': 'stop'}") []
                    [VStr "Hi"] [("stop_reason", VStr "stop")]
                    eq_refl eq_refl)).
    reflexivity.
Defined.

(** ** Identifiers that hold a marker *)

(** The family of the whole-response decoder is the first in the chain
    whose marker occurs. *)
Lemma classify_priority (f : family) (model : string) :
  has_marker f model ->
  classify model <> Unknown /\ (priority (classify model) <= priority f)%nat.
Proof.
  intros Hf. apply marked_has_marker in Hf.
  unfold classify, chain. cbn [List.find].
  repeat match goal with
         | |- context [marked model ?g] =>
             destruct (marked model g) eqn:?;
             [split; [discriminate | destruct f; first [congruence | cbn; lia]]|]
         end.
  destruct f; try congruence. cbv in Hf. discriminate Hf.
Qed.

(** X18: a model identifier that holds the marker of a family, at any
    place, is never handled as unknown: the formatter and the whole-response
    decoder both take the branch of that family or of a family earlier in
    their chain. *)
Theorem X18_identifier_with_a_marker_is_a_known_family
    (json_dumps : val -> string) (requests_get : val -> fetched)
    (f : family) (model : string) :
  has_marker f model ->
  exists g,
    g <> Unknown
    /\ (priority g <= priority f)%nat
    /\ (forall messages body,
           _format_message json_dumps requests_get model messages body
           = format_as json_dumps requests_get g messages body)
    /\ (forall jsondata,
           _extract_output jsondata model = extract_as g jsondata).
Proof.
  intros Hf. destruct (classify_priority f model Hf) as [Hknown Hle].
  exists (classify model). repeat split; [exact Hknown | exact Hle | |].
  - intros messages body. apply format_dispatch.
  - intros jsondata. apply extract_dispatch.
Qed.

(** X18 at [meta.amazon-titan], which holds [meta] and is handled as
    Amazon. *)
Lemma X18_witness :
  exists g,
    g <> Unknown
    /\ (priority g <= priority Meta)%nat
    /\ (forall messages body,
           _format_message Json.dumps offline "meta.amazon-titan" messages body
           = format_as Json.dumps offline g messages body)
    /\ (forall jsondata,
           _extract_output jsondata "meta.amazon-titan"
           = extract_as g jsondata).
Proof.
  apply (X18_identifier_with_a_marker_is_a_known_family
           Json.dumps offline Meta "meta.amazon-titan").
  exists "meta". split; [reflexivity|].
  exists "", ".amazon-titan". reflexivity.
Defined.

(** * Properties of [pipe] *)

(** X19: [pipe] reads neither the [stream] entry of the body nor the user
    message: a request that asks for streaming is answered as the same
    request without the entry, in whole-response mode. *)
Theorem X19_pipe_does_not_read_the_stream_flag
    (json_dumps : val -> string) (requests_get : val -> fetched)
    (json_loads_bytes : bytes -> result val)
    (invoke_model : bytes -> string -> invoked)
    (str_of_exception : exn -> string)
    (user_message user_message' model_id : string) (messages : list message)
    (body : gmap string val) (flag : val) :
  pipe json_dumps requests_get json_loads_bytes invoke_model str_of_exception
    user_message model_id messages (<[ "stream" := flag ]> body)
  = pipe json_dumps requests_get json_loads_bytes invoke_model str_of_exception
      user_message' model_id messages body.
Proof.
  unfold pipe.
  rewrite (format_message_body_frame json_dumps requests_get model_id messages
             (<[ "stream" := flag ]> body) body);
    [reflexivity|..]; apply lookup_insert_ne; discriminate.
Qed.

(** X20: for a model identifier of no known family [pipe] still invokes
    the model, with the empty payload; its answer is the empty string when
    the response parses as JSON, whatever the document, and an error message
    otherwise. *)
Theorem X20_pipe_sends_the_empty_payload_for_an_unknown_family
    (json_dumps : val -> string) (requests_get : val -> fetched)
    (json_loads_bytes : bytes -> result val)
    (invoke_model : bytes -> string -> invoked)
    (str_of_exception : exn -> string)
    (user_message model_id : string) (messages : list message)
    (body : gmap string val) :
  (forall f, ~ has_marker f model_id) ->
  pipe json_dumps requests_get json_loads_bytes invoke_model str_of_exception
    user_message model_id messages body
  = match invoke_model [] model_id with
    | InvokeFailed message => error_message message
    | Responded raw =>
        match json_loads_bytes raw with
        | Ok _ => VStr ""
        | Raise e => error_message (str_of_exception e)
        end
    end.
Proof.
  intros Hnone. unfold pipe.
  rewrite format_dispatch, (classify_none model_id Hnone).
  cbn [format_as]. change (list_byte_of_string "") with (@nil byte).
  destruct (invoke_model [] model_id) as [raw|message]; [|reflexivity].
  destruct (json_loads_bytes raw) as [doc|e]; cbn [mbind result_bind];
    [|reflexivity].
  now rewrite extract_dispatch, (classify_none model_id Hnone).
Qed.

(** X20 at [gpt-4o], with a service that answers an empty object. *)
Lemma X20_witness :
  pipe Json.dumps offline Json.loads_bytes (answering (Json.chunk "{}"))
    exception_text "hi" "gpt-4o" [Message "user" "hi"] ∅
  = match answering (Json.chunk "{}") [] "gpt-4o" with
    | InvokeFailed message => error_message message
    | Responded raw =>
        match Json.loads_bytes raw with
        | Ok _ => VStr ""
        | Raise e => error_message (exception_text e)
        end
    end.
Proof.
  apply (X20_pipe_sends_the_empty_payload_for_an_unknown_family
           Json.dumps offline Json.loads_bytes (answering (Json.chunk "{}"))
           exception_text "hi" "gpt-4o").
  intros f. destruct f; no_marker.
Defined.

(** X21: for Amazon, Anthropic, Cohere, Meta and Mistral, once the model has
    answered a JSON document, [pipe] returns the field at the family's path
    when the document has it, and an error message, never an exception and
    never a part of the document, when the field is missing. *)
Theorem X21_pipe_returns_the_field_or_an_error_message
    (json_dumps : val -> string) (requests_get : val -> fetched)
    (json_loads_bytes : bytes -> result val)
    (invoke_model : bytes -> string -> invoked)
    (str_of_exception : exn -> string)
    (user_message model_id : string) (messages : list message)
    (body : gmap string val) (payload : string) (raw : bytes) (doc : val) :
  In (classify model_id) [Amazon; Anthropic; Cohere; Meta; Mistral] ->
  _format_message json_dumps requests_get model_id messages body = Ok payload ->
  invoke_model (list_byte_of_string payload) model_id = Responded raw ->
  json_loads_bytes raw = Ok doc ->
  match field (path (classify model_id)) doc with
  | Some v =>
      pipe json_dumps requests_get json_loads_bytes invoke_model
        str_of_exception user_message model_id messages body = v
  | None =>
      exists e,
        pipe json_dumps requests_get json_loads_bytes invoke_model
          str_of_exception user_message model_id messages body
        = error_message (str_of_exception e)
  end.
Proof.
  intros Hin Hformat Hinvoke Hloads. unfold pipe.
  rewrite Hformat, Hinvoke, Hloads. cbn [mbind result_bind].
  rewrite extract_dispatch.
  assert (Hknown : classify model_id <> Unknown /\ classify model_id <> AI21).
  { cbn [In] in Hin.
    destruct Hin as [<-|[<-|[<-|[<-|[<-|[]]]]]]; split; discriminate. }
  destruct Hknown as [Hknown Hsub].
  destruct (field (path (classify model_id)) doc) as [v|] eqn:Hfield.
  - now rewrite (extract_field_present _ _ _ Hknown Hfield).
  - destruct (extract_field_missing _ _ Hknown Hsub Hfield) as [e ->].
    now exists e.
Qed.

(** X21 at a Cohere identifier, with a service that answers a document
    without [generations]. *)
Lemma X21_witness :
  match field (path (classify "cohere.command-text-v14"))
          (VDict [("message", VStr "throttled")]) with
  | Some v =>
      pipe Json.dumps offline Json.loads_bytes
        (answering (Json.chunk "{'message': 'throttled'}")) exception_text
        "hi" "cohere.command-text-v14" [Message "user" "hi"] ∅ = v
  | None =>
      exists e,
        pipe Json.dumps offline Json.loads_bytes
          (answering (Json.chunk "{'message': 'throttled'}")) exception_text
          "hi" "cohere.command-text-v14" [Message "user" "hi"] ∅
        = error_message (exception_text e)
  end.
Proof.
  refine (X21_pipe_returns_the_field_or_an_error_message
            Json.dumps offline Json.loads_bytes
            (answering (Json.chunk "{'message': 'throttled'}")) exception_text
            "hi" "cohere.command-text-v14" [Message "user" "hi"] ∅
            _ (Json.chunk "{'message': 'throttled'}")
            (VDict [("message", VStr "throttled")])
            _ eq_refl eq_refl _).
  - vm_compute. tauto.
  - vm_compute. reflexivity.
Defined.

(** * Properties of [update_pipelines] *)

(** The entry of a model summary that has both names. *)
Lemma pipeline_entry_present (model id name : val) :
  field [Key "modelId"] model = Some id ->
  field [Key "modelName"] model = Some name ->
  pipeline_entry model = Ok (VDict [("id", id); ("name", name)]).
Proof.
  intros Hid Hname. unfold pipeline_entry.
  pose proof (getitem_key_field model "modelId") as Hi.
  pose proof (getitem_key_field model "modelName") as Hn.
  rewrite Hid in Hi. rewrite Hname in Hn. now rewrite Hi, Hn.
Qed.

(** A model summary that lacks one of the two names has no entry. *)
Lemma pipeline_entry_missing (model : val) :
  field [Key "modelId"] model = None \/ field [Key "modelName"] model = None ->
  raises (pipeline_entry model).
Proof.
  intros Hmissing. unfold pipeline_entry.
  pose proof (getitem_key_field model "modelId") as Hi.
  pose proof (getitem_key_field model "modelName") as Hn.
  destruct (field [Key "modelId"] model) as [id|].
  - rewrite Hi. cbn [mbind result_bind].
    destruct Hmissing as [[=]|Hname]. rewrite Hname in Hn.
    destruct Hn as [e ->]. now exists e.
  - destruct Hi as [e ->]. now exists e.
Qed.

Lemma mapM_cons {A B : Type} (f : A -> result B) (x : A) (l : list A) :
  mapM f (x :: l) = y ← f x; k ← mapM f l; Ok (y :: k).
Proof. reflexivity. Qed.

(** The comprehension raises as soon as one of its elements does. *)
Lemma mapM_raises {A B : Type} (f : A -> result B) (l : list A) (x : A) :
  In x l -> raises (f x) -> raises (mapM f l).
Proof.
  intros Hin Hx. induction l as [|y l IH]; [destruct Hin|].
  cbn [mapM]. destruct Hin as [->|Hin].
  - destruct Hx as [e ->]. now exists e.
  - destruct (f y) as [b|e]; cbn; [|now exists e].
    destruct (IH Hin) as [e ->]. now exists e.
Qed.

(** X22: when the catalogue answers and every model summary has a
    [modelId] and a [modelName], the pipelines are one entry by model, in the
    order of the catalogue, each with the model's identifier as [id] and its
    name as [name]. *)
Theorem X22_update_pipelines_lists_every_model
    (response : val) (models entries : list val) :
  field [Key "modelSummaries"] response = Some (VList models) ->
  Forall2
    (fun model entry =>
       exists id name,
         field [Key "modelId"] model = Some id
         /\ field [Key "modelName"] model = Some name
         /\ entry = VDict [("id", id); ("name", name)])
    models entries ->
  update_pipelines (Some response) = entries.
Proof.
  intros Hsummaries Hentries.
  assert (Hmap : mapM pipeline_entry models = Ok entries).
  { clear Hsummaries.
    induction Hentries as [|model entry models entries Hentry _ IH];
      [reflexivity|].
    destruct Hentry as (id & name & Hid & Hname & ->).
    rewrite mapM_cons, (pipeline_entry_present _ _ _ Hid Hname).
    cbn [mbind result_bind]. now rewrite IH. }
  unfold update_pipelines.
  pose proof (getitem_key_field response "modelSummaries") as Hget.
  rewrite Hsummaries in Hget. rewrite Hget. cbn [mbind result_bind iterate].
  now rewrite Hmap.
Qed.

(** X22 at a catalogue of two models. *)
Lemma X22_witness :
  update_pipelines
    (Some
       (VDict [("modelSummaries",
                VList [VDict [("modelId", VStr "amazon.titan-text-lite-v1");
                              ("modelName", VStr "Titan Text G1 - Lite")];
                       VDict [("modelName", VStr "Claude");
                              ("providerName", VStr "Anthropic");
                              ("modelId", VStr "anthropic.claude-v2")]])]))
  = [VDict [("id", VStr "amazon.titan-text-lite-v1");
            ("name", VStr "Titan Text G1 - Lite")];
     VDict [("id", VStr "anthropic.claude-v2"); ("name", VStr "Claude")]].
Proof.
  apply (X22_update_pipelines_lists_every_model _
           [VDict [("modelId", VStr "amazon.titan-text-lite-v1");
                   ("modelName", VStr "Titan Text G1 - Lite")];
            VDict [("modelName", VStr "Claude");
                   ("providerName", VStr "Anthropic");
                   ("modelId", VStr "anthropic.claude-v2")]]).
  - reflexivity.
  - repeat constructor; do 2 eexists; repeat split; reflexivity.
Defined.

(** X23: the catalogue is taken whole or not at all: when a single model
    summary lacks its [modelId] or its [modelName], no model is listed and
    the pipelines are the one error entry. *)
Theorem X23_update_pipelines_is_all_or_nothing
    (response : val) (models : list val) (model : val) :
  field [Key "modelSummaries"] response = Some (VList models) ->
  In model models ->
  field [Key "modelId"] model = None \/ field [Key "modelName"] model = None ->
  update_pipelines (Some response) = error_pipelines.
Proof.
  intros Hsummaries Hin Hmissing. unfold update_pipelines.
  pose proof (getitem_key_field response "modelSummaries") as Hget.
  rewrite Hsummaries in Hget. rewrite Hget. cbn [mbind result_bind iterate].
  destruct (mapM_raises pipeline_entry models model Hin
              (pipeline_entry_missing model Hmissing)) as [e ->].
  reflexivity.
Qed.

(** X23 at a catalogue of two models, the second one without a name. *)
Lemma X23_witness :
  update_pipelines
    (Some
       (VDict [("modelSummaries",
                VList [VDict [("modelId", VStr "amazon.titan-text-lite-v1");
                              ("modelName", VStr "Titan Text G1 - Lite")];
                       VDict [("modelId", VStr "anthropic.claude-v2")]])]))
  = error_pipelines.
Proof.
  apply (X23_update_pipelines_is_all_or_nothing _
           [VDict [("modelId", VStr "amazon.titan-text-lite-v1");
                   ("modelName", VStr "Titan Text G1 - Lite")];
            VDict [("modelId", VStr "anthropic.claude-v2")]]
           (VDict [("modelId", VStr "anthropic.claude-v2")])).
  - reflexivity.
  - right. left. reflexivity.
  - right. reflexivity.
Defined.

(** * The two decoders and the formatter together *)

(** X24: the formatter and the whole-response decoder read a model
    identifier in the same way: for every identifier there is one family
    whose branch both of them take, for all turns, bodies and documents. *)
Theorem X24_formatter_and_decoder_take_the_same_family
    (json_dumps : val -> string) (requests_get : val -> fetched)
    (model : string) :
  exists f,
    (forall messages body,
        _format_message json_dumps requests_get model messages body
        = format_as json_dumps requests_get f messages body)
    /\ (forall jsondata, _extract_output jsondata model = extract_as f jsondata)
    /\ (f = Unknown <-> forall g, ~ has_marker g model).
Proof.
  exists (classify model). split; [|split].
  - intros messages body. apply format_dispatch.
  - intros jsondata. apply extract_dispatch.
  - split.
    + intros Hu g Hg. now destruct (classify_priority g model Hg).
    + apply classify_none.
Qed.

(** X25: in every branch that decodes the chunk itself, that is for every
    provider token but [anthropic] and [cohere], an event whose bytes are not
    UTF-8 ends the stream at that event with a [UnicodeDecodeError]. *)
Theorem X25_chunk_that_is_not_utf8_ends_the_stream
    (json_loads : string -> result val) (json_loads_bytes : bytes -> result val)
    (model_provider : string) (pre : list bytes) (bad : bytes)
    (post : list bytes) (ds : list val) :
  model_provider <> "anthropic" ->
  model_provider <> "cohere" ->
  _stream_response json_loads json_loads_bytes pre model_provider = (ds, None) ->
  utf8_valid (map Byte.to_N bad) = false ->
  _stream_response json_loads json_loads_bytes (pre ++ bad :: post)
    model_provider
  = (ds, Some UnicodeDecodeError).
Proof.
  intros Hanthropic Hcohere Hpre Hbad. rewrite stream_response_body in *.
  apply for_yield_raise; [exact Hpre|].
  unfold event_body.
  destruct (String.eqb_spec model_provider "anthropic"); [contradiction|].
  destruct (String.eqb_spec model_provider "cohere"); [contradiction|].
  destruct (String.eqb model_provider "mistral");
    [|destruct (String.eqb model_provider "meta")];
    unfold mistral_event, mistral_line, meta_event, default_event, decode_utf8;
    now rewrite Hbad.
Qed.

(** X25 in the default branch, on a chunk that is the byte [0xff]. *)
Lemma X25_witness :
  _stream_response Json.loads Json.loads_bytes
    ([Json.chunk "Hel"] ++ [Byte.xff] :: [Json.chunk "lo"]) "amazon"
  = ([VStr "Hel"], Some UnicodeDecodeError).
Proof.
  apply (X25_chunk_that_is_not_utf8_ends_the_stream
           Json.loads Json.loads_bytes "amazon");
    try discriminate; reflexivity.
Defined.
